(** * typeh: runtime type classification and validation

    A shallow embedding of [lib/typeh.js] (typeh v1.0.1) and the proofs of
    the properties its specification states about it.

    Conventions of the embedding.
    - A JavaScript string is a [string]: a sequence of code units below 256
      (the Latin-1 range, which [toLowerCase] maps into itself).
    - A JavaScript number is a [number]: NaN, the two infinities, the two
      zeros, or a finite non-zero number given by the decimal that
      [Number::toString] prints for it (sign, digits [m], exponent [e],
      standing for [m * 10^e]).
    - A JavaScript value is a [Value]; an object or function is described by
      what the library observes of it (its class tag, the name of its
      constructor, its iteration capability, ...).  Property reads are plain
      data reads: accessors that throw and constructors whose [name] is a
      truthy non-string are outside the model.
    - A call either returns or throws: [completion].  Besides the error
      of [define], the errors that the language itself raises in the
      library are modelled: the TypeError of [ToNumber] and of [ToString]
      on an object that yields no number or no string, and the
      ReferenceError of [obj instanceof HTMLElement] in a host that has
      no [HTMLElement]. *)

From Stdlib Require Import ZArith Bool Ascii String List Lia.
From Stdlib Require Import DecimalString.
From stdpp Require Import base option strings gmap.

Import ListNotations.
Local Open Scope string_scope.
Local Open Scope Z_scope.

(* ===================================================================== *)
(** ** Host strings *)
(* ===================================================================== *)

Module JSString.

Definition code (c : ascii) : N := N_of_ascii c.

(** [A-Z], and the upper-case letters of the Latin-1 supplement
    (U+00C0..U+00DE without the multiplication sign U+00D7). *)
Definition is_upper (c : ascii) : bool :=
  let n := code c in
  ((65 <=? n) && (n <=? 90) ||
   (192 <=? n) && (n <=? 222) && negb (n =? 215))%N.

Definition is_lower_ascii (c : ascii) : bool :=
  let n := code c in ((97 <=? n) && (n <=? 122))%N.

Definition lower_char (c : ascii) : ascii :=
  if is_upper c then ascii_of_N (code c + 32) else c.

(** Exact on the letters [a-z], the only ones the library upper-cases. *)
Definition upper_char (c : ascii) : ascii :=
  if is_lower_ascii c then ascii_of_N (code c - 32) else c.

(** [String.prototype.toLowerCase] *)
Fixpoint toLowerCase (s : string) : string :=
  match s with
  | EmptyString => EmptyString
  | String c r => String (lower_char c) (toLowerCase r)
  end.

(** [String.prototype.toUpperCase] *)
Fixpoint toUpperCase (s : string) : string :=
  match s with
  | EmptyString => EmptyString
  | String c r => String (upper_char c) (toUpperCase r)
  end.

(** [String.prototype.slice(start, end)]; [None] is an omitted [end]. *)
Definition slice (s : string) (start : Z) (stop : option Z) : string :=
  let len := Z.of_nat (String.length s) in
  let clamp i := if i <? 0 then Z.max (len + i) 0 else Z.min i len in
  let from := clamp start in
  let upto := clamp (match stop with Some e => e | None => len end) in
  substring (Z.to_nat from) (Z.to_nat (Z.max (upto - from) 0)) s.

(** [s[0]]: the first code unit as a string (the empty string stands for
    [undefined], which no caller in the library can obtain). *)
Definition first (s : string) : string :=
  match s with
  | EmptyString => EmptyString
  | String c _ => String c EmptyString
  end.

(** [String.prototype.split(sep)] for a one-character separator. *)
Fixpoint split (sep : ascii) (s : string) : list string :=
  match s with
  | EmptyString => [EmptyString]
  | String c r =>
      if Ascii.eqb c sep then EmptyString :: split sep r
      else match split sep r with
           | [] => [String c EmptyString]
           | piece :: pieces => String c piece :: pieces
           end
  end.

(** [===] on strings *)
Definition seq (a b : string) : bool := String.eqb a b.

End JSString.

Import JSString.

Infix "===" := JSString.seq (at level 70, no associativity).

(* ===================================================================== *)
(** ** Host numbers *)
(* ===================================================================== *)

(** A finite non-zero number is [Finite negative m e]: the number that
    [Number::toString] prints from the decimal [m * 10^e].  Trailing zeros
    of [m] do not matter ([Finite false 120 (-1)] is [12.0], that is [12]). *)
Inductive number : Type :=
| NaN
| Infinity (negative : bool)
| Zero (negative : bool)
| Finite (negative : bool) (m : positive) (e : Z).

Module JSNumber.

Definition digits (m : positive) : string :=
  NilEmpty.string_of_uint (Pos.to_uint m).

Definition digitsZ (z : Z) : string :=
  match z with
  | Z0 => "0"
  | Zpos p | Zneg p => digits p
  end.

(** Drop the zeros at the end of a digit string. *)
Fixpoint rstrip_zeros (d : string) : string :=
  match d with
  | EmptyString => EmptyString
  | String c r =>
      let r' := rstrip_zeros r in
      if (r' === "") && Ascii.eqb c "0" then EmptyString else String c r'
  end.

Fixpoint zeros (n : nat) : string :=
  match n with
  | O => EmptyString
  | S n' => String "0" (zeros n')
  end.

(** The integers [s], [k], [n] of [Number::toString]: [k] digits [s] with
    [k] as small as possible, and the value is [s * 10^(n - k)]. *)
Definition significand (m : positive) : string := rstrip_zeros (digits m).
Definition k_of (m : positive) : Z := Z.of_nat (String.length (significand m)).
Definition n_of (m : positive) (e : Z) : Z :=
  e + Z.of_nat (String.length (digits m)).

Definition sign_text (negative : bool) : string :=
  if negative then "-" else "".

(** [Number::toString(x)] in radix 10 (ECMA-262, 6.1.6.1.20). *)
Definition toString (x : number) : string :=
  match x with
  | NaN => "NaN"
  | Zero _ => "0"
  | Infinity negative => sign_text negative ++ "Infinity"
  | Finite negative m e =>
      let s := significand m in
      let k := k_of m in
      let n := n_of m e in
      let body :=
        if (-5 <=? n) && (n <=? 21) then
          if k <=? n then s ++ zeros (Z.to_nat (n - k))
          else if 0 <? n then
            substring 0 (Z.to_nat n) s ++ "." ++
            substring (Z.to_nat n) (Z.to_nat (k - n)) s
          else "0." ++ zeros (Z.to_nat (- n)) ++ s
        else
          let exponent :=
            "e" ++ (if 0 <=? n - 1 then "+" else "-") ++ digitsZ (n - 1) in
          if k =? 1 then s ++ exponent
          else substring 0 1 s ++ "." ++
               substring 1 (Z.to_nat (k - 1)) s ++ exponent
      in sign_text negative ++ body
  end.

(** The finiteness test of the global [isFinite], after [ToNumber]. *)
Definition finite (x : number) : bool :=
  match x with
  | NaN | Infinity _ => false
  | Zero _ | Finite _ _ _ => true
  end.

(** [Number.isInteger] on a number: [s * 10^(n - k)] is an integer exactly
    when [k <= n], [s] having no zero at its end. *)
Definition isInteger (x : number) : bool :=
  match x with
  | NaN | Infinity _ => false
  | Zero _ => true
  | Finite _ m e => k_of m <=? n_of m e
  end.

(** [ToBoolean] on a number *)
Definition truthy (x : number) : bool :=
  match x with
  | NaN | Zero _ => false
  | Infinity _ | Finite _ _ _ => true
  end.

(** [isNaN(a - b)]: the difference of two numbers is NaN when one of them
    is, or when both are the same infinity. *)
Definition difference_isNaN (a b : number) : bool :=
  match a, b with
  | NaN, _ | _, NaN => true
  | Infinity s, Infinity t => Bool.eqb s t
  | _, _ => false
  end.

(** [parseFloat(String(x))] for a number [x]: the text of NaN does not
    parse, the texts [Infinity] and [-Infinity] do, and the text of a
    finite number parses back to that number (the zero loses its sign). *)
Definition reparse (x : number) : number :=
  match x with
  | Zero _ => Zero false
  | _ => x
  end.

Definition of_nat (n : nat) : number :=
  match n with
  | O => Zero false
  | S _ => Finite false (Pos.of_nat n) 0
  end.

End JSNumber.

(** The pattern [rfloat = /^-?\d*\.\d+$/] of [toType]. *)
Module Rfloat.

Definition is_digit (c : ascii) : bool :=
  let n := N_of_ascii c in ((48 <=? n) && (n <=? 57))%N.

Fixpoint all_digits (s : string) : bool :=
  match s with
  | EmptyString => true
  | String c r => is_digit c && all_digits r
  end.

(** what is left after the greedy [\d*] *)
Fixpoint skip_digits (s : string) : string :=
  match s with
  | EmptyString => EmptyString
  | String c r => if is_digit c then skip_digits r else s
  end.

(** what is left after the optional [-] *)
Definition skip_minus (s : string) : string :=
  match s with
  | EmptyString => EmptyString
  | String c r => if Ascii.eqb c "-" then r else s
  end.

(** [\.\d+$] on what is left *)
Definition fraction_to_end (s : string) : bool :=
  match s with
  | EmptyString => false
  | String c fraction =>
      Ascii.eqb c "." && negb (fraction === "") && all_digits fraction
  end.

(** [rfloat.test(s)].  The classes [-], [\d] and [\.] are disjoint, so the
    greedy match is the only one. *)
Definition test (s : string) : bool :=
  fraction_to_end (skip_digits (skip_minus s)).

End Rfloat.

Definition twelve : number := Finite false 12 0.
Definition twelve_point_zero : number := Finite false 120 (-1).
Definition twelve_point_five : number := Finite false 125 (-1).

(* ===================================================================== *)
(** ** Values *)
(* ===================================================================== *)

(** What the library can observe of an object or a function. *)
Record object (V : Type) : Type := mkObject {
  (** [typeof obj === "function"] *)
  callable : bool;
  (** [Object.prototype.toString.call(obj)] is ["[object " + classTag + "]"] *)
  classTag : string;
  (** [obj.constructor.name]; [None] when [obj.constructor] is falsy *)
  constructorName : option string;
  (** [obj.nodeType === 1] *)
  nodeTypeIs1 : bool;
  (** [obj instanceof HTMLElement]; [None] in a host that has no global
      [HTMLElement] (Node), where evaluating it is a ReferenceError *)
  instanceofHTMLElement : option bool;
  (** [typeof obj[Symbol.iterator] === "function"] *)
  hasIterator : bool;
  (** [obj instanceof Map], [obj instanceof Set] *)
  instanceofMap : bool;
  instanceofSet : bool;
  (** [obj.length] *)
  lengthProperty : V;
  (** [ToNumber(obj)]; [None] when the object has no primitive value
      (no [valueOf] or [toString] that yields one), a TypeError *)
  toNumberResult : option number;
  (** [ToString(obj)]; [None] when the conversion yields no string (no
      [toString] or [valueOf] that yields a primitive, or one that yields
      a symbol), a TypeError *)
  toStringResult : option string
}.

Arguments mkObject {V}.
Arguments callable {V}.
Arguments classTag {V}.
Arguments constructorName {V}.
Arguments nodeTypeIs1 {V}.
Arguments instanceofHTMLElement {V}.
Arguments hasIterator {V}.
Arguments instanceofMap {V}.
Arguments instanceofSet {V}.
Arguments lengthProperty {V}.
Arguments toNumberResult {V}.
Arguments toStringResult {V}.

#[warnings="-register-all"]
Inductive Value : Type :=
| VUndefined
| VNull
| VBoolean (b : bool)
| VNumber (x : number)
| VString (s : string)
| VSymbol
| VBigInt (z : Z)
| VObject (o : object Value).

(** A call returns a value, throws the [new Error(message)] of the
    library, or throws an error of the host. *)
Inductive completion (A : Type) : Type :=
| Return (a : A)
| Throw (message : string)
| ThrowTypeError
| ThrowReferenceError.

Arguments Return {A}.
Arguments Throw {A}.
Arguments ThrowTypeError {A}.
Arguments ThrowReferenceError {A}.

(** Sequencing: what follows runs on the value returned, an error goes
    through. *)
Definition bind {A B : Type} (c : completion A) (k : A -> completion B)
    : completion B :=
  match c with
  | Return a => k a
  | Throw message => Throw message
  | ThrowTypeError => ThrowTypeError
  | ThrowReferenceError => ThrowReferenceError
  end.

Notation "x <- c ;; k" := (bind c (fun x => k))
  (at level 100, c at next level, right associativity).

(** The value returned, changed by [f]. *)
Definition on_return {A B : Type} (f : A -> B) (c : completion A)
    : completion B :=
  x <- c ;; Return (f x).

Module Host.

(** [obj == null] *)
Definition nullish (obj : Value) : bool :=
  match obj with
  | VUndefined | VNull => true
  | _ => false
  end.

(** [ToBoolean(obj)] *)
Definition truthy (obj : Value) : bool :=
  match obj with
  | VUndefined | VNull => false
  | VBoolean b => b
  | VNumber x => JSNumber.truthy x
  | VString s => negb (s === "")
  | VSymbol => true
  | VBigInt z => negb (z =? 0)
  | VObject _ => true
  end.

(** [typeof obj] *)
Definition typeof (obj : Value) : string :=
  match obj with
  | VUndefined => "undefined"
  | VNull => "object"
  | VBoolean _ => "boolean"
  | VNumber _ => "number"
  | VString _ => "string"
  | VSymbol => "symbol"
  | VBigInt _ => "bigint"
  | VObject o => if callable o then "function" else "object"
  end.

(** [b + ""] for a boolean *)
Definition boolean_text (b : bool) : string :=
  if b then "true" else "false".

(** The tag of [Object.prototype.toString] *)
Definition class_tag (obj : Value) : string :=
  match obj with
  | VUndefined => "Undefined"
  | VNull => "Null"
  | VBoolean _ => "Boolean"
  | VNumber _ => "Number"
  | VString _ => "String"
  | VSymbol => "Symbol"
  | VBigInt _ => "BigInt"
  | VObject o => classTag o
  end.

(** [Object.prototype.toString.call(obj)] *)
Definition Object_prototype_toString (obj : Value) : string :=
  "[object " ++ class_tag obj ++ "]".

(** [(construct = obj.constructor) && construct.name] on a value that is
    not nullish: a primitive finds its constructor on the prototype of
    its wrapper. *)
Definition constructor_name (obj : Value) : option string :=
  match obj with
  | VUndefined | VNull => None
  | VBoolean _ => Some "Boolean"
  | VNumber _ => Some "Number"
  | VString _ => Some "String"
  | VSymbol => Some "Symbol"
  | VBigInt _ => Some "BigInt"
  | VObject o => constructorName o
  end.

(** [obj.nodeType === 1]; the wrappers of the primitives have no
    [nodeType]. *)
Definition nodeType_is_1 (obj : Value) : bool :=
  match obj with
  | VObject o => nodeTypeIs1 o
  | _ => false
  end.

(** [obj instanceof HTMLElement]: a ReferenceError where the host has no
    [HTMLElement].  The library evaluates it on objects only, a primitive
    having no [nodeType]. *)
Definition instanceof_HTMLElement (obj : Value) : completion bool :=
  match obj with
  | VObject o =>
      match instanceofHTMLElement o with
      | Some b => Return b
      | None => ThrowReferenceError
      end
  | _ => Return false
  end.

(** [typeof obj[Symbol.iterator] === "function"] on a value that is not
    nullish; among the primitives only strings iterate. *)
Definition iterator_is_function (obj : Value) : bool :=
  match obj with
  | VString _ => true
  | VObject o => hasIterator o
  | _ => false
  end.

(** [obj instanceof Map || obj instanceof Set] *)
Definition instanceof_Map_or_Set (obj : Value) : bool :=
  match obj with
  | VObject o => instanceofMap o || instanceofSet o
  | _ => false
  end.

(** [obj.length] on a value that is not nullish *)
Definition get_length (obj : Value) : Value :=
  match obj with
  | VString s => VNumber (JSNumber.of_nat (String.length s))
  | VObject o => lengthProperty o
  | _ => VUndefined
  end.

(** [isFinite(obj)] where the library calls it: on a value whose
    constructor is named [Number] or [Int] ([toType]) or whose [typeof]
    is ["number"] ([isScalar]), that is on a number or an object (see
    [int_typed_is_number_or_object]).  On an object it first takes
    [ToNumber(obj)], a TypeError when the object has no primitive
    value. *)
Definition isFinite (obj : Value) : completion bool :=
  match obj with
  | VNumber x => Return (JSNumber.finite x)
  | VObject o =>
      match toNumberResult o with
      | Some x => Return (JSNumber.finite x)
      | None => ThrowTypeError
      end
  | _ => Return false
  end.

(** [rfloat.test(obj)], [test] converting its argument with [ToString],
    a TypeError when the object yields no string; called by [toType]
    after [isFinite], on the same values. *)
Definition rfloat_test (obj : Value) : completion bool :=
  match obj with
  | VNumber x => Return (Rfloat.test (JSNumber.toString x))
  | VObject o =>
      match toStringResult o with
      | Some text => Return (Rfloat.test text)
      | None => ThrowTypeError
      end
  | _ => Return false
  end.

(** [Number.isInteger(obj)]: false for whatever is not a number. *)
Definition Number_isInteger (obj : Value) : bool :=
  match obj with
  | VNumber x => JSNumber.isInteger x
  | _ => false
  end.

(** [obj === Infinity], [obj === -Infinity] *)
Definition is_infinity (negative : bool) (obj : Value) : bool :=
  match obj with
  | VNumber (Infinity s) => Bool.eqb s negative
  | _ => false
  end.

End Host.

Import Host.

(* ===================================================================== *)
(** ** The library *)
(* ===================================================================== *)

(** [function Each(array, callback)]: [callback(array[i], i)] for each
    index in turn; the callback acts on a state [St]. *)
Fixpoint Each_from {A St : Type} (i : nat) (array : list A)
    (callback : A -> nat -> St -> St) (st : St) : St :=
  match array with
  | [] => st
  | x :: rest => Each_from (S i) rest callback (callback x i st)
  end.

Definition Each {A St : Type} (array : list A)
    (callback : A -> nat -> St -> St) (st : St) : St :=
  Each_from 0 array callback st.

(** [var types = "int|float|...".split("|")] *)
Definition types : list string :=
  split "|" "int|float|string|bool|array|object|callable|iterable|mixed|null|false|true".

Definition class_names : list string :=
  split " " "Boolean Number String Function Array Date RegExp Object Error Symbol".

(** [class2type], as populated at start-up:
    [class2type["[" + "object " + name + "]"] = name.toLowerCase()]. *)
Definition class2type : gmap string string :=
  Each class_names
    (fun name _ (class2type : gmap string string) =>
       <["[" ++ "object " ++ name ++ "]" := toLowerCase name]> class2type)
    ∅.

(** [function isType(obj)] *)
Definition isType (obj : Value) : string :=
  match obj with
  | VUndefined => "undefined"
  | VNull => "null"
  | _ =>
      if (typeof obj === "object") || (typeof obj === "function") then
        match class2type !! Object_prototype_toString obj with
        | Some name => if name === "" then "object" else name
        | None => "object"
        end
      else typeof obj
  end.

(** The name [toType] lower-cases: the constructor's, or else the class
    tag [Object.prototype.toString.call(obj).slice(8, -1)]. *)
Definition raw_type (obj : Value) : string :=
  match constructor_name obj with
  | Some name =>
      if name === "" then slice (Object_prototype_toString obj) 8 (Some (-1))
      else name
  | None => slice (Object_prototype_toString obj) 8 (Some (-1))
  end.

(** [function toType(obj)].  The guard
    [type === "int" && isFinite(obj) && (rfloat.test(obj) ||
    !Number.isInteger(obj))] is evaluated from the left: [isFinite] is
    called, and may throw, only for a type that reads ["int"], and
    [rfloat.test] is called, and may throw, only when [isFinite] has
    returned true. *)
Definition toType (obj : Value) : completion string :=
  match obj with
  | VUndefined => Return "undefined"
  | VNull => Return "null"
  | _ =>
      let type := toLowerCase (raw_type obj) in
      let type := if type === "number" then "int" else type in
      if type === "int" then
        finite <- isFinite obj ;;
        if finite then
          fractional <- rfloat_test obj ;;
          if fractional || negb (Number_isInteger obj) then Return "float"
          else Return type
        else Return type
      else Return type
  end.

(** The first test of the loop of [typeMatches]:
    [obj && obj.nodeType === 1 && type === "htmlelement" &&
    obj instanceof HTMLElement], evaluated from the left. *)
Definition element_test (obj : Value) (type : string) : completion bool :=
  if truthy obj && nodeType_is_1 obj && (type === "htmlelement")
  then instanceof_HTMLElement obj
  else Return false.

(** The body of the loop [for (type of types)] of [typeMatches]: every
    branch that fires leaves the loop; [matched] is returned as it stands
    when no candidate is left. *)
Fixpoint candidates (types : list string) (obj : Value) (ofType : string)
    (matched : bool) : completion bool :=
  match types with
  | [] => Return matched
  | type :: rest =>
      let type := toLowerCase type in
      (* HTMLElement *)
      element <- element_test obj type ;;
      if element then Return true
      (* Callable *)
      else if (type === "callable") && (ofType === "function")
      then Return true
      (* Iterable *)
      else if type === "iterable"
      then Return (negb (nullish obj) && iterator_is_function obj)
      (* Boolean *)
      else if (match obj with
               | VBoolean b => type === boolean_text b
               | _ => false
               end) || (type === slice ofType 0 (Some 4))
      then Return true
      (* Mixed|Others *)
      else if (type === ofType) || (type === isType obj) || (type === "mixed")
      then Return true
      else candidates rest obj ofType matched
  end.

(** [function typeMatches(type, obj)] *)
Definition typeMatches (type : string) (obj : Value) : completion bool :=
  let optinal := slice type 0 (Some 1) === "?" in
  let matched := optinal && nullish obj in
  let type := if optinal then slice type 1 None else type in
  let types := split "|" type in
  ofType <- toType obj ;;
  candidates types obj ofType matched.

(** [define = typeh.define = function(type, obj)] *)
Definition define (type : string) (obj : Value) : completion Value :=
  matched <- typeMatches type obj ;;
  if negb matched then
    ofType <- toType obj ;;
    Throw ("The value must be of type [" ++ type ++ "], [" ++
           ofType ++ "] given.")
  else Return obj.

(** [typeh.setType = function(options)]: [options] lists the enumerable
    properties of the argument in the order of [for (type in options)]. *)
Fixpoint setType (options : list (string * Value)) : completion Value :=
  match options with
  | [] => Return VUndefined
  | (type, obj) :: rest => _ <- define type obj ;; setType rest
  end.

(* ===================================================================== *)
(** ** The exported table *)
(* ===================================================================== *)

(** The function values stored in [typeh], one constructor per function
    expression of the source; the three generated ones close over the
    [type] of their iteration. *)
Inductive member : Type :=
| fn_setType
| fn_define
| fn_isCountable
| fn_isInteger
| fn_isDouble
| fn_isNumeric
| fn_isLong
| fn_isScalar
| fn_isInfinite
| fn_optional (type : string)   (* return define("?" + type, obj) *)
| fn_required (type : string)   (* return define(type, obj) *)
| fn_predicate (type : string)  (* return typeMatches(type, obj) *)
| fn_toType
| fn_isType.

(** ["is" + type[0].toUpperCase() + type.slice(1)] *)
Definition predicate_name (type : string) : string :=
  "is" ++ toUpperCase (first type) ++ slice type 1 None.

(** The callback of [Each(types, ...)]. *)
Definition generate (type : string) (_ : nat) (typeh : gmap string member)
    : gmap string member :=
  let typeh := <["_" ++ type := fn_optional type]> typeh in
  let typeh := <[type := fn_required type]> typeh in
  if negb (type === "mixed")
  then <[predicate_name type := fn_predicate type]> typeh
  else typeh.

(** The object [typeh] once the script has run, its properties assigned in
    the order of the source. *)
Definition typeh : gmap string member :=
  let typeh : gmap string member := ∅ in
  let typeh := <["setType" := fn_setType]> typeh in
  let typeh := <["define" := fn_define]> typeh in
  let typeh := <["isCountable" := fn_isCountable]> typeh in
  let typeh := <["isInteger" := fn_isInteger]> typeh in
  let typeh := <["isDouble" := fn_isDouble]> typeh in
  let typeh := <["isNumeric" := fn_isNumeric]> typeh in
  let typeh := <["isLong" := fn_isLong]> typeh in
  let typeh := <["isScalar" := fn_isScalar]> typeh in
  let typeh := <["isInfinite" := fn_isInfinite]> typeh in
  let typeh := Each types generate typeh in
  let typeh := <["toType" := fn_toType]> typeh in
  <["isType" := fn_isType]> typeh.

(** [Object.assign(global, typeh)]: the free identifiers [isInt],
    [isString], [isArray], ... of the hand-written predicates are read from
    the global object, which holds the properties of [typeh]. *)
Definition global : gmap string member := typeh.

(** A call that returns the boolean [b]. *)
Definition boolean (b : bool) : option (completion Value) :=
  Some (Return (VBoolean b)).

(** Go on with the truth value of what a call returned; an error of the
    call goes through, and so does a call outside the model ([None]). *)
Definition on_truth (r : option (completion Value))
    (k : bool -> option (completion Value)) : option (completion Value) :=
  match r with
  | None => None
  | Some (Return v) => k (truthy v)
  | Some (Throw message) => Some (Throw message)
  | Some ThrowTypeError => Some ThrowTypeError
  | Some ThrowReferenceError => Some ThrowReferenceError
  end.

Section Accessors.

(** The host's reading of a string as a number: [StringToNumber] (the
    [ToNumber] of a string) and [parseFloat] on a string. *)
Variable StringToNumber : string -> number.
Variable parseFloat_text : string -> number.

(** [isNaN(obj - parseFloat(obj))]; [None] where [parseFloat(obj)] or
    the subtraction throws a TypeError (a symbol, a BigInt minus a
    number, an object that yields no string or no number). *)
Definition self_minus_parseFloat_isNaN (obj : Value) : option bool :=
  match obj with
  | VUndefined | VNull | VBoolean _ => Some true
  | VNumber x => Some (JSNumber.difference_isNaN x (JSNumber.reparse x))
  | VString s =>
      Some (JSNumber.difference_isNaN (StringToNumber s) (parseFloat_text s))
  | VSymbol | VBigInt _ => None
  | VObject o =>
      match toStringResult o, toNumberResult o with
      | Some text, Some x =>
          Some (JSNumber.difference_isNaN x (parseFloat_text text))
      | _, _ => None
      end
  end.

(** A call [f(obj)] of a member whose body names no global of the
    library.  [None]: the call is outside the model ([setType] and
    [define] take other arguments). *)
Definition call0 (f : member) (obj : Value) : option (completion Value) :=
  match f with
  | fn_optional type => Some (define ("?" ++ type) obj)
  | fn_required type => Some (define type obj)
  | fn_predicate type => Some (on_return VBoolean (typeMatches type obj))
  | fn_isScalar =>
      (* typeMatches("string|bool", obj) ||
         typeof obj === "number" && isFinite(obj) *)
      Some (on_return VBoolean
              (matched <- typeMatches "string|bool" obj ;;
               if matched then Return true
               else if typeof obj === "number" then isFinite obj
               else Return false))
  | fn_isInfinite => boolean (is_infinity false obj || is_infinity true obj)
  | fn_toType => Some (on_return VString (toType obj))
  | fn_isType => Some (Return (VString (isType obj)))
  | _ => None
  end.

Definition global0 (name : string) (obj : Value) : option (completion Value) :=
  match global !! name with
  | Some f => call0 f obj
  | None => None
  end.

(** [isInteger] and [isDouble] call the globals [isInt] and [isFloat]. *)
Definition call1 (f : member) (obj : Value) : option (completion Value) :=
  match f with
  | fn_isInteger => global0 "isInt" obj
  | fn_isDouble => global0 "isFloat" obj
  | _ => call0 f obj
  end.

Definition global1 (name : string) (obj : Value) : option (completion Value) :=
  match global !! name with
  | Some f => call1 f obj
  | None => None
  end.

(** [isCountable], [isNumeric] and [isLong] call globals that may call
    globals in turn. *)
Definition call2 (f : member) (obj : Value) : option (completion Value) :=
  match f with
  | fn_isCountable =>
      (* isArray(obj) || obj instanceof Map || obj instanceof Set ||
         (obj != null && isObject(obj) && isInteger(obj.length)) *)
      on_truth (global1 "isArray" obj) (fun array =>
        if array then boolean true
        else if instanceof_Map_or_Set obj then boolean true
        else if nullish obj then boolean false
        else on_truth (global1 "isObject" obj) (fun object =>
               if object then global1 "isInteger" (get_length obj)
               else boolean false))
  | fn_isNumeric =>
      (* (isInt(obj) || isString(obj)) && !isNaN(obj - parseFloat(obj)) *)
      let difference :=
        match self_minus_parseFloat_isNaN obj with
        | Some nan => boolean (negb nan)
        | None => Some ThrowTypeError
        end in
      on_truth (global1 "isInt" obj) (fun int =>
        if int then difference
        else on_truth (global1 "isString" obj) (fun str =>
               if str then difference else boolean false))
  | fn_isLong =>
      (* isInteger(obj) && Number.isInteger(obj) *)
      on_truth (global1 "isInteger" obj) (fun integer =>
        if integer then boolean (Number_isInteger obj) else boolean false)
  | _ => call1 f obj
  end.

(** [typeh[name](obj)] *)
Definition invoke (name : string) (obj : Value) : option (completion Value) :=
  match typeh !! name with
  | Some f => call2 f obj
  | None => None
  end.

End Accessors.

(** Sample values. *)
Definition ordinary (tag : string) (name : option string) (iterates : bool)
    (length : Value) (text : string) : Value :=
  VObject {| callable := false; classTag := tag; constructorName := name;
             nodeTypeIs1 := false; instanceofHTMLElement := Some false;
             hasIterator := iterates;
             instanceofMap := false; instanceofSet := false;
             lengthProperty := length;
             toNumberResult := Some NaN; toStringResult := Some text |}.

(** [{}] *)
Definition plain_object : Value :=
  ordinary "Object" (Some "Object") false VUndefined "[object Object]".

(** [[]] *)
Definition empty_array : Value :=
  ordinary "Array" (Some "Array") true (VNumber (Zero false)) "".


(** [document.body] *)
Definition body_element : Value :=
  VObject {| callable := false; classTag := "HTMLBodyElement";
             constructorName := Some "HTMLBodyElement";
             nodeTypeIs1 := true; instanceofHTMLElement := Some true;
             hasIterator := false;
             instanceofMap := false; instanceofSet := false;
             lengthProperty := VUndefined;
             toNumberResult := Some NaN;
             toStringResult := Some "[object HTMLBodyElement]" |}.

Definition five : Value := VNumber (Finite false 5 0).

(** [Object.assign(Object.create(null), { constructor: Number })]: an
    object named [Number] that has no primitive value. *)
Definition bare_number_object : Value :=
  VObject {| callable := false; classTag := "Object";
             constructorName := Some "Number";
             nodeTypeIs1 := false; instanceofHTMLElement := Some false;
             hasIterator := false;
             instanceofMap := false; instanceofSet := false;
             lengthProperty := VUndefined;
             toNumberResult := None; toStringResult := None |}.

(** [{ nodeType: 1 }] in a host that has no [HTMLElement] *)
Definition node_like_object : Value :=
  VObject {| callable := false; classTag := "Object";
             constructorName := Some "Object";
             nodeTypeIs1 := true; instanceofHTMLElement := None;
             hasIterator := false;
             instanceofMap := false; instanceofSet := false;
             lengthProperty := VUndefined;
             toNumberResult := Some NaN;
             toStringResult := Some "[object Object]" |}.

(* ===================================================================== *)
(** ** Labels and type names *)
(* ===================================================================== *)

(** The candidates [typeMatches] takes from an expression: the pieces
    between the pipes, once the marker is gone. *)
Definition labels (type : string) : list string :=
  split "|" (if slice type 0 (Some 1) === "?" then slice type 1 None else type).

Definition member_of (label : string) (names : list string) : bool :=
  existsb (fun name => label === name) names.

(** The names held by the class-tag table. *)
Definition class2type_names : list string := map toLowerCase class_names.

(** The name [toType] derives from the constructor of a value that is not
    nullish (from its class tag when it has no named constructor). *)
Definition constructor_derived (obj : Value) : option string :=
  if nullish obj then None else Some (toLowerCase (raw_type obj)).

(** A recognized type name, for the value at hand: a label of the catalog,
    a name of the class-tag table, or the constructor-derived name. *)
Definition recognized (obj : Value) (label : string) : bool :=
  member_of label types || member_of label class2type_names ||
  match constructor_derived obj with
  | Some name => label === name
  | None => false
  end.

(** The names under which [typeMatches] can accept a value of refined
    type [ofType]: the recognized ones read with the refined type in place
    of the constructor-derived name, the first four characters of the
    refined type, and the reserved name of element nodes. *)
Definition accepted_name (ofType : string) (label : string) : bool :=
  member_of label types || member_of label class2type_names ||
  (label === ofType) || (label === slice ofType 0 (Some 4)) ||
  (label === "htmlelement").

(* ===================================================================== *)
(** ** Further names and sample values *)
(* ===================================================================== *)

(** The answers of [isType]: the two nullish texts, the [typeof] of the
    primitives, ["object"], and the names of the class-tag table. *)
Definition coarse_names : list string :=
  ["undefined"; "null"; "boolean"; "number"; "string"; "symbol"; "bigint";
   "object"] ++ class2type_names.

(** [typeMatches] returns [true]. *)
Definition passes (type : string) (obj : Value) : bool :=
  match typeMatches type obj with
  | Return true => true
  | _ => false
  end.

(** Every entry of the argument of [setType] passes. *)
Definition all_pass (options : list (string * Value)) : bool :=
  forallb (fun entry => passes (fst entry) (snd entry)) options.

(** A value that is neither an object nor a function. *)
Definition primitive (obj : Value) : bool :=
  match obj with
  | VObject _ => false
  | _ => true
  end.

(** The disjunction [a || b] of two calls that may throw: [b] is not
    called when [a] returns [true]. *)
Definition or_else (a b : completion bool) : completion bool :=
  x <- a ;; if x then Return true else b.

(** [new Number(12)] *)
Definition number_object : Value :=
  VObject {| callable := false; classTag := "Number";
             constructorName := Some "Number";
             nodeTypeIs1 := false; instanceofHTMLElement := Some false;
             hasIterator := false;
             instanceofMap := false; instanceofSet := false;
             lengthProperty := VUndefined;
             toNumberResult := Some twelve; toStringResult := Some "12" |}.

(** [async function () {}] *)
Definition async_function : Value :=
  VObject {| callable := true; classTag := "AsyncFunction";
             constructorName := Some "AsyncFunction";
             nodeTypeIs1 := false; instanceofHTMLElement := Some false;
             hasIterator := false;
             instanceofMap := false; instanceofSet := false;
             lengthProperty := VNumber (Zero false);
             toNumberResult := Some NaN;
             toStringResult := Some "async function () {}" |}.

(** [new Map()] *)
Definition empty_map : Value :=
  VObject {| callable := false; classTag := "Map";
             constructorName := Some "Map";
             nodeTypeIs1 := false; instanceofHTMLElement := Some false;
             hasIterator := true;
             instanceofMap := true; instanceofSet := false;
             lengthProperty := VUndefined;
             toNumberResult := Some NaN;
             toStringResult := Some "[object Map]" |}.

(* ===================================================================== *)
(** ** Strings: case, slices, pieces *)
(* ===================================================================== *)

Ltac each_char c :=
  destruct c as [[] [] [] [] [] [] [] []]; try reflexivity; try discriminate.

Lemma lower_char_idempotent (c : ascii) :
  lower_char (lower_char c) = lower_char c.
Proof. each_char c. Qed.

Lemma lower_char_keeps_pipe (c : ascii) :
  Ascii.eqb (lower_char c) "|" = Ascii.eqb c "|".
Proof. each_char c. Qed.

Lemma lower_char_keeps_marker (c : ascii) :
  Ascii.eqb (lower_char c) "?" = Ascii.eqb c "?".
Proof. each_char c. Qed.

Lemma toLowerCase_idempotent (s : string) :
  toLowerCase (toLowerCase s) = toLowerCase s.
Proof.
  induction s as [|c r IH]; simpl; [reflexivity|].
  now rewrite lower_char_idempotent, IH.
Qed.

Lemma toLowerCase_app (a b : string) :
  toLowerCase (a ++ b) = toLowerCase a ++ toLowerCase b.
Proof. induction a as [|c r IH]; simpl; [reflexivity | now rewrite IH]. Qed.

Lemma split_nonempty (sep : ascii) (s : string) : split sep s <> [].
Proof.
  induction s as [|c r IH]; simpl; [discriminate|].
  destruct (Ascii.eqb c sep); [discriminate|].
  destruct (split sep r); [contradiction | discriminate].
Qed.

Lemma split_toLowerCase (s : string) :
  split "|" (toLowerCase s) = map toLowerCase (split "|" s).
Proof.
  induction s as [|c r IH]; simpl; [reflexivity|].
  rewrite lower_char_keeps_pipe, IH.
  destruct (Ascii.eqb c "|"); [reflexivity|].
  destruct (split "|" r); reflexivity.
Qed.

Lemma split_app (sep : ascii) (a b : string) :
  split sep (a ++ String sep b) = (split sep a ++ split sep b)%list.
Proof.
  induction a as [|c r IH]; simpl.
  - now rewrite Ascii.eqb_refl.
  - rewrite IH. destruct (Ascii.eqb c sep); [reflexivity|].
    pose proof (split_nonempty sep r) as Hne.
    destruct (split sep r); [contradiction | reflexivity].
Qed.

Lemma split_single (sep : ascii) (s x : string) :
  split sep s = [x] -> x = s.
Proof.
  revert x. induction s as [|c r IH]; simpl; intros x H.
  - now inversion H.
  - destruct (Ascii.eqb c sep).
    + inversion H as [[Hx Hr]]. now apply split_nonempty in Hr.
    + pose proof (split_nonempty sep r) as Hne.
      destruct (split sep r) as [|p ps] eqn:E; [contradiction|].
      inversion H; subst. now rewrite (IH p eq_refl).
Qed.

Lemma substring_whole (s : string) : substring 0 (String.length s) s = s.
Proof. induction s as [|c r IH]; simpl; [reflexivity | now rewrite IH]. Qed.

Lemma substring_none (s : string) : substring 0 0 s = "".
Proof. destruct s; reflexivity. Qed.

Lemma substring_length_le (n m : nat) (s : string) :
  (String.length (substring n m s) <= m)%nat.
Proof.
  revert n m. induction s as [|c r IH]; intros n m.
  - destruct n, m; simpl; lia.
  - destruct n as [|n]; destruct m as [|m]; simpl; try lia.
    + specialize (IH 0%nat m). lia.
    + apply IH.
    + apply IH.
Qed.

(** [type.slice(0, 1)] is the first character. *)
Lemma slice_first (s : string) : slice s 0 (Some 1) = first s.
Proof.
  destruct s as [|c r]; [reflexivity|].
  unfold slice. cbn [String.length first].
  replace (0 <? 0) with false by reflexivity.
  replace (1 <? 0) with false by reflexivity.
  replace (Z.min 0 (Z.of_nat (S (String.length r)))) with 0 by lia.
  replace (Z.min 1 (Z.of_nat (S (String.length r)))) with 1 by lia.
  change (Z.to_nat 0) with 0%nat.
  change (Z.to_nat (Z.max (1 - 0) 0)) with 1%nat.
  simpl. now rewrite substring_none.
Qed.

(** [type.slice(1)] is what follows the first character. *)
Lemma slice_rest (c : ascii) (r : string) : slice (String c r) 1 None = r.
Proof.
  unfold slice. cbn [String.length].
  replace (1 <? 0) with false by reflexivity.
  replace (Z.of_nat (S (String.length r)) <? 0) with false
    by (symmetry; apply Z.ltb_ge; lia).
  rewrite Z.min_id.
  replace (Z.min 1 (Z.of_nat (S (String.length r)))) with 1 by lia.
  replace (Z.max (Z.of_nat (S (String.length r)) - 1) 0)
    with (Z.of_nat (String.length r)) by lia.
  rewrite Nat2Z.id. change (Z.to_nat 1) with 1%nat.
  simpl. apply substring_whole.
Qed.

(** [ofType.slice(0, 4)] has four characters at most. *)
Lemma slice_prefix_length (s : string) :
  (String.length (slice s 0 (Some 4%Z)) <= 4)%nat.
Proof.
  unfold slice.
  replace (0 <? 0) with false by reflexivity.
  replace (4 <? 0) with false by reflexivity.
  set (len := Z.of_nat (String.length s)).
  pose proof (substring_length_le (Z.to_nat (Z.min 0 len))
                (Z.to_nat (Z.max (Z.min 4 len - Z.min 0 len) 0)) s).
  lia.
Qed.

Lemma seq_true (a b : string) : (a === b) = true <-> a = b.
Proof. apply String.eqb_eq. Qed.

Lemma seq_false (a b : string) : (a === b) = false <-> a <> b.
Proof. apply String.eqb_neq. Qed.

Lemma seq_refl (a : string) : (a === a) = true.
Proof. apply String.eqb_refl. Qed.

(* ===================================================================== *)
(** ** Completions *)
(* ===================================================================== *)

Lemma bind_Return {A B : Type} (a : A) (k : A -> completion B) :
  (x <- Return a ;; k x) = k a.
Proof. reflexivity. Qed.

Lemma bind_returned {A B : Type} (c : completion A) (k : A -> completion B)
    (b : B) :
  (x <- c ;; k x) = Return b -> exists a, c = Return a /\ k a = Return b.
Proof. destruct c; try discriminate. intros H. eauto. Qed.

(* ===================================================================== *)
(** ** The loop of [typeMatches] *)
(* ===================================================================== *)

(** The element test is idle for a label that does not read
    [htmlelement], and for a value that is falsy. *)
Lemma element_test_other (obj : Value) (t : string) :
  (t === "htmlelement") = false -> element_test obj t = Return false.
Proof. intros H. unfold element_test. now rewrite H, andb_false_r. Qed.

Lemma element_test_falsy (obj : Value) (t : string) :
  truthy obj = false -> element_test obj t = Return false.
Proof. intros H. unfold element_test. now rewrite H. Qed.

Lemma element_test_primitive (obj : Value) (t : string) :
  (forall o, obj <> VObject o) -> element_test obj t = Return false.
Proof.
  intros H. unfold element_test.
  destruct obj as [| |b|x|s| |z|o]; cbn [nodeType_is_1];
    rewrite ?andb_false_r; try reflexivity.
  now destruct (H o).
Qed.

(** The element test never throws the error of [define]. *)
Lemma element_test_no_Error (obj : Value) (t message : string) :
  element_test obj t <> Throw message.
Proof.
  unfold element_test. destruct (_ && _ && _); [|discriminate].
  destruct obj as [| |b|x|s| |z|o]; try discriminate.
  cbn [instanceof_HTMLElement].
  destruct (instanceofHTMLElement o); discriminate.
Qed.

(** One turn of the loop. *)
Lemma candidates_step (l : string) (rest : list string) (obj : Value)
    (ofType : string) (matched : bool) :
  candidates (l :: rest) obj ofType matched =
  (element <- element_test obj (toLowerCase l) ;;
  if element then Return true
  else if (toLowerCase l === "callable") && (ofType === "function")
  then Return true
  else if toLowerCase l === "iterable"
  then Return (negb (nullish obj) && iterator_is_function obj)
  else if (match obj with
           | VBoolean b => toLowerCase l === boolean_text b
           | _ => false
           end) || (toLowerCase l === slice ofType 0 (Some 4))
  then Return true
  else if (toLowerCase l === ofType) || (toLowerCase l === isType obj) ||
          (toLowerCase l === "mixed")
  then Return true
  else candidates rest obj ofType matched).
Proof. reflexivity. Qed.

(** The turn of a candidate on which the element test is idle. *)
Lemma candidates_step_idle (l : string) (rest : list string) (obj : Value)
    (ofType : string) (matched : bool) :
  element_test obj (toLowerCase l) = Return false ->
  candidates (l :: rest) obj ofType matched =
  if (toLowerCase l === "callable") && (ofType === "function")
  then Return true
  else if toLowerCase l === "iterable"
  then Return (negb (nullish obj) && iterator_is_function obj)
  else if (match obj with
           | VBoolean b => toLowerCase l === boolean_text b
           | _ => false
           end) || (toLowerCase l === slice ofType 0 (Some 4))
  then Return true
  else if (toLowerCase l === ofType) || (toLowerCase l === isType obj) ||
          (toLowerCase l === "mixed")
  then Return true
  else candidates rest obj ofType matched.
Proof. intros H. now rewrite candidates_step, H. Qed.

(** The loop sees each candidate through [toLowerCase] only. *)
Lemma candidates_toLowerCase (labels : list string) (obj : Value)
    (ofType : string) (matched : bool) :
  candidates (map toLowerCase labels) obj ofType matched =
  candidates labels obj ofType matched.
Proof.
  induction labels as [|l rest IH]; [reflexivity|].
  cbn [map]. rewrite !candidates_step, toLowerCase_idempotent.
  destruct (element_test obj (toLowerCase l)) as [[]| | |];
    cbn [bind]; try reflexivity.
  now rewrite IH.
Qed.

(** A candidate that reads [iterable] ends the loop with the outcome of
    the iteration test, whatever [matched] was and whatever follows. *)
Lemma candidates_iterable (l : string) (rest : list string) (obj : Value)
    (ofType : string) (matched : bool) :
  toLowerCase l = "iterable" ->
  candidates (l :: rest) obj ofType matched =
  Return (negb (nullish obj) && iterator_is_function obj).
Proof.
  intros Hl.
  rewrite candidates_step_idle
    by (rewrite Hl; now apply element_test_other).
  now rewrite Hl.
Qed.

Lemma candidates_stop_at_iterable (before after : list string) (l : string)
    (obj : Value) (ofType : string) (matched : bool) :
  toLowerCase l = "iterable" ->
  candidates (before ++ l :: after) obj ofType matched =
  candidates (before ++ [l]) obj ofType matched.
Proof.
  intros Hl. induction before as [|b before IH].
  - cbn [app]. now rewrite !(candidates_iterable l) by exact Hl.
  - cbn [app]. rewrite !candidates_step.
    destruct (element_test obj (toLowerCase b)) as [[]| | |];
      cbn [bind]; try reflexivity.
    now rewrite IH.
Qed.

(** Started from [matched = true] on a falsy value, the loop can only
    answer [false] at a candidate that reads [iterable]. *)
Lemma candidates_matched (labels : list string) (obj : Value)
    (ofType : string) :
  truthy obj = false ->
  Forall (fun l => toLowerCase l <> "iterable") labels ->
  candidates labels obj ofType true = Return true.
Proof.
  intros Hf. induction 1 as [|l rest Hl _ IH]; [reflexivity|].
  rewrite candidates_step_idle by now apply element_test_falsy.
  apply seq_false in Hl. rewrite Hl.
  repeat match goal with |- (if ?c then _ else _) = _ => destruct c end;
    auto.
Qed.

(** The loop never throws the error of [define]. *)
Lemma candidates_no_Error (ls : list string) (obj : Value) (ofType : string)
    (matched : bool) (message : string) :
  candidates ls obj ofType matched <> Throw message.
Proof.
  induction ls as [|l rest IH]; [discriminate|].
  rewrite candidates_step.
  pose proof (element_test_no_Error obj (toLowerCase l) message) as He.
  destruct (element_test obj (toLowerCase l)) as [[]|m| |];
    cbn [bind]; try discriminate.
  - repeat match goal with |- (if ?c then _ else _) <> _ => destruct c end;
      try discriminate. exact IH.
  - intros H. injection H as ->. now apply He.
Qed.

(** Without a label that reads [htmlelement] the loop returns. *)
Lemma candidates_returns (ls : list string) (obj : Value) (ofType : string)
    (matched : bool) :
  Forall (fun l => toLowerCase l <> "htmlelement") ls ->
  exists b, candidates ls obj ofType matched = Return b.
Proof.
  induction 1 as [|l rest Hl _ IH]; [now exists matched|].
  apply seq_false in Hl.
  rewrite candidates_step_idle by now apply element_test_other.
  repeat match goal with
         | |- exists b, (if ?c then _ else _) = _ => destruct c
         end; eauto.
Qed.

Lemma iterable_is_one_piece (l : string) :
  toLowerCase l = "iterable" -> split "|" l = [l].
Proof.
  intros Hl.
  pose proof (split_toLowerCase l) as H. rewrite Hl in H.
  change (split "|" "iterable") with ["iterable"] in H.
  destruct (split "|" l) as [|p [|q ps]] eqn:E; try discriminate.
  now rewrite (split_single _ _ _ E).
Qed.

(** What [toType] makes of a number: ["float"] under the guard of the
    source, ["int"] otherwise. *)
Lemma toType_number (x : number) :
  toType (VNumber x) =
  Return (if JSNumber.finite x &&
             (Rfloat.test (JSNumber.toString x) ||
              negb (JSNumber.isInteger x))
          then "float" else "int").
Proof.
  unfold toType.
  change (toLowerCase (raw_type (VNumber x))) with "number".
  change ((if "number" === "number" then "int" else "number") === "int")
    with true.
  cbv zeta iota. cbn [isFinite bind rfloat_test Number_isInteger].
  destruct (JSNumber.finite x); [|reflexivity].
  cbn [andb]. now destruct (_ || _).
Qed.

(** What [toType] makes of an object or a function: the two conversions
    are reached only under a name that reads [number] or [int], the
    second one only for a finite number, and then [Number.isInteger],
    which refuses every object, leaves ["float"]. *)
Lemma toType_object (o : object Value) :
  toType (VObject o) =
  let type := toLowerCase (raw_type (VObject o)) in
  let type := if type === "number" then "int" else type in
  if type === "int" then
    match toNumberResult o with
    | Some x =>
        if JSNumber.finite x then
          match toStringResult o with
          | Some _ => Return "float"
          | None => ThrowTypeError
          end
        else Return type
    | None => ThrowTypeError
    end
  else Return type.
Proof.
  unfold toType. cbv zeta.
  destruct ((if toLowerCase (raw_type (VObject o)) === "number" then "int"
             else toLowerCase (raw_type (VObject o))) === "int");
    [|reflexivity].
  cbn [isFinite]. destruct (toNumberResult o) as [x|]; [|reflexivity].
  cbn [bind]. destruct (JSNumber.finite x); [|reflexivity].
  cbn [rfloat_test]. destruct (toStringResult o); [|reflexivity].
  cbn [bind Number_isInteger negb]. now rewrite orb_true_r.
Qed.

(** [toType] throws nothing but the TypeError of its two conversions. *)
Lemma toType_outcomes (obj : Value) :
  (exists t, toType obj = Return t) \/ toType obj = ThrowTypeError.
Proof.
  destruct obj as [| |b|x|s| |z|o]; try (left; eexists; reflexivity).
  - left. rewrite toType_number. eauto.
  - rewrite toType_object. cbv zeta.
    repeat match goal with
           | |- context [if ?c then _ else _] => destruct c
           | |- context [match ?c with Some _ => _ | None => _ end] =>
               destruct c
           end; eauto.
Qed.

(** [typeMatches] is [toType] followed by the loop over the labels. *)
Lemma typeMatches_labels (type : string) (obj : Value) :
  typeMatches type obj =
  (ofType <- toType obj ;;
  candidates (labels type) obj ofType
    ((slice type 0 (Some 1) === "?") && nullish obj)).
Proof. reflexivity. Qed.

(** [typeMatches] never throws the error of [define]. *)
Lemma typeMatches_no_Error (type : string) (obj : Value) (message : string) :
  typeMatches type obj <> Throw message.
Proof.
  rewrite typeMatches_labels.
  destruct (toType_outcomes obj) as [[t ->] | ->]; [|discriminate].
  cbn [bind]. apply candidates_no_Error.
Qed.

Lemma labels_unmarked (type : string) :
  (slice type 0 (Some 1) === "?") = false -> labels type = split "|" type.
Proof. intros H. unfold labels. now rewrite H. Qed.

Lemma labels_marked (type : string) : labels ("?" ++ type) = split "|" type.
Proof.
  unfold labels. rewrite slice_first.
  change ("?" ++ type) with (String "?" type). cbn [first].
  change (String "?" "" === "?") with true. cbv iota.
  now rewrite slice_rest.
Qed.

Lemma labels_toLowerCase (type : string) :
  labels (toLowerCase type) = map toLowerCase (labels type) /\
  (slice (toLowerCase type) 0 (Some 1) === "?") =
  (slice type 0 (Some 1) === "?").
Proof.
  unfold labels. rewrite !slice_first.
  destruct type as [|c r]; [split; reflexivity|].
  cbn [toLowerCase first]. unfold seq at 1 2 3 4. cbn [String.eqb].
  rewrite lower_char_keeps_marker.
  destruct (Ascii.eqb c "?").
  - cbn [String.eqb]. rewrite !slice_rest. split; [|reflexivity].
    apply split_toLowerCase.
  - split; [|reflexivity].
    change (String (lower_char c) (toLowerCase r))
      with (toLowerCase (String c r)).
    apply split_toLowerCase.
Qed.

(** [typeMatches] reads its expression through [toLowerCase] only. *)
Lemma typeMatches_toLowerCase (type : string) (obj : Value) :
  typeMatches (toLowerCase type) obj = typeMatches type obj.
Proof.
  rewrite !typeMatches_labels.
  destruct (labels_toLowerCase type) as [-> ->].
  destruct (toType obj) as [t| | |]; cbn [bind]; try reflexivity.
  apply candidates_toLowerCase.
Qed.

(** An expression that does not begin with the marker is its own list of
    candidates, and nothing is matched beforehand. *)
Lemma typeMatches_plain (type : string) (obj : Value) :
  (first type === "?") = false ->
  typeMatches type obj =
  (ofType <- toType obj ;; candidates (split "|" type) obj ofType false).
Proof.
  intros H. unfold typeMatches. rewrite slice_first, H. reflexivity.
Qed.

(** After the marker come the candidates; a nullish value is matched
    beforehand. *)
Lemma typeMatches_optional (type : string) (obj : Value) :
  typeMatches ("?" ++ type) obj =
  (ofType <- toType obj ;;
  candidates (split "|" type) obj ofType (nullish obj)).
Proof.
  rewrite typeMatches_labels, labels_marked, slice_first.
  reflexivity.
Qed.

Lemma typeMatches_cut_after_iterable (prefix l after : string) (obj : Value) :
  toLowerCase l = "iterable" ->
  typeMatches (prefix ++ String "|" (l ++ String "|" after)) obj =
  typeMatches (prefix ++ String "|" l) obj.
Proof.
  intros Hl.
  assert (Hcut : forall p : string,
    split "|" (p ++ String "|" (l ++ String "|" after)) =
    (split "|" p ++ l :: split "|" after)%list /\
    split "|" (p ++ String "|" l) = (split "|" p ++ [l])%list).
  { intros p. now rewrite !split_app, (iterable_is_one_piece l Hl). }
  unfold typeMatches. rewrite !slice_first.
  destruct (toType obj) as [t| | |]; cbn [bind]; try reflexivity.
  destruct prefix as [|c r].
  - destruct (Hcut "") as [H1 H2].
    change ("" ++ String "|" (l ++ String "|" after))
      with (String "|" (l ++ String "|" after)) in *.
    change ("" ++ String "|" l) with (String "|" l) in *.
    cbn [first]. change (String "|" "" === "?") with false. cbv iota.
    rewrite H1, H2. now apply candidates_stop_at_iterable.
  - destruct (Hcut r) as [H1 H2]. destruct (Hcut (String c r)) as [H3 H4].
    change (String c r ++ String "|" (l ++ String "|" after))
      with (String c (r ++ String "|" (l ++ String "|" after))) in *.
    change (String c r ++ String "|" l)
      with (String c (r ++ String "|" l)) in *.
    cbn [first].
    destruct (String c "" === "?").
    + rewrite !slice_rest, H1, H2. now apply candidates_stop_at_iterable.
    + rewrite H3, H4. now apply candidates_stop_at_iterable.
Qed.

Lemma iterable_is_unmarked (l : string) :
  toLowerCase l = "iterable" -> (first l === "?") = false.
Proof.
  destruct l as [|c r]; [discriminate|]. cbn [toLowerCase first]. intros H.
  unfold seq. cbn [String.eqb].
  rewrite <- lower_char_keeps_marker.
  now replace (lower_char c) with "i"%char by congruence.
Qed.

Lemma typeMatches_iterable_first (l after : string) (obj : Value) :
  toLowerCase l = "iterable" ->
  typeMatches (l ++ String "|" after) obj = typeMatches l obj.
Proof.
  intros Hl. pose proof (iterable_is_unmarked l Hl) as Hm.
  rewrite !typeMatches_plain; cycle 1.
  - exact Hm.
  - destruct l; [discriminate | exact Hm].
  - rewrite split_app, (iterable_is_one_piece l Hl).
    destruct (toType obj) as [t| | |]; cbn [bind]; try reflexivity.
    cbn [app]. now rewrite !(candidates_iterable l) by exact Hl.
Qed.

Lemma typeMatches_optional_iterable_first (l after : string) (obj : Value) :
  toLowerCase l = "iterable" ->
  typeMatches ("?" ++ l ++ String "|" after) obj = typeMatches ("?" ++ l) obj.
Proof.
  intros Hl. rewrite !typeMatches_optional.
  rewrite split_app, (iterable_is_one_piece l Hl).
  destruct (toType obj) as [t| | |]; cbn [bind]; try reflexivity.
  cbn [app]. now rewrite !(candidates_iterable l) by exact Hl.
Qed.

Lemma nullish_is_falsy (obj : Value) : nullish obj = true -> truthy obj = false.
Proof. destruct obj; try discriminate; reflexivity. Qed.

Lemma toType_nullish (obj : Value) :
  nullish obj = true -> exists t, toType obj = Return t.
Proof. destruct obj; try discriminate; eexists; reflexivity. Qed.

(** X24: a nullish value passes a marked expression none of whose
    candidates reads [iterable]. *)
Lemma optional_accepts_nullish (type : string) (obj : Value) :
  nullish obj = true ->
  Forall (fun l => toLowerCase l <> "iterable") (split "|" type) ->
  typeMatches ("?" ++ type) obj = Return true.
Proof.
  intros Hn Hl. rewrite typeMatches_optional, Hn.
  destruct (toType_nullish obj Hn) as [t ->]. cbn [bind].
  apply candidates_matched; [now apply nullish_is_falsy | exact Hl].
Qed.


(* ===================================================================== *)
(** ** Properties of the matcher and the validator *)
(* ===================================================================== *)

(** C2 (as the code behaves): the marked expression [?iterable] rejects
    [null] and [undefined].  The marker does set [matched] for a nullish
    value, but the loop still runs, and its [iterable] branch assigns
    [matched] anew, to [false]; [define] and the generated optional
    constructor [_iterable] then throw. *)
Theorem optional_iterable_rejects_nullish :
  typeMatches "?iterable" VNull = Return false /\
  typeMatches "?iterable" VUndefined = Return false /\
  define "?iterable" VNull =
    Throw "The value must be of type [?iterable], [null] given." /\
  (forall (StringToNumber parseFloat_text : string -> number),
     invoke StringToNumber parseFloat_text "_iterable" VNull =
       Some (Throw "The value must be of type [?iterable], [null] given.")) /\
  typeMatches "?string" VNull = Return true.
Proof. repeat split. Qed.

(** C3: a candidate that reads [iterable] ends the loop with the outcome
    of the iteration test, so the candidates after it are never looked at:
    cutting them off leaves the result of [typeMatches] unchanged, and
    ["iterable|int"] rejects the number 5 although ["int"] accepts it. *)
Theorem iterable_masks_later_candidates :
  (forall (l : string) (after : list string) (v : Value)
          (ofType : string) (matched : bool),
     toLowerCase l = "iterable" ->
     candidates (l :: after) v ofType matched =
     Return (negb (nullish v) && iterator_is_function v)) /\
  (forall (before after : list string) (l : string) (v : Value)
          (ofType : string) (matched : bool),
     toLowerCase l = "iterable" ->
     candidates (before ++ l :: after) v ofType matched =
     candidates (before ++ [l]) v ofType matched) /\
  (forall (E l R : string) (v : Value),
     toLowerCase l = "iterable" ->
     typeMatches (E ++ "|" ++ l ++ "|" ++ R) v =
       typeMatches (E ++ "|" ++ l) v /\
     typeMatches (l ++ "|" ++ R) v = typeMatches l v /\
     typeMatches ("?" ++ l ++ "|" ++ R) v = typeMatches ("?" ++ l) v) /\
  typeMatches "iterable|int" five = Return false /\
  typeMatches "int" five = Return true.
Proof.
  split; [exact candidates_iterable|].
  split; [exact candidates_stop_at_iterable|].
  split; [|split; reflexivity].
  intros E l R v Hl. repeat split.
  - now apply typeMatches_cut_after_iterable.
  - now apply typeMatches_iterable_first.
  - now apply typeMatches_optional_iterable_first.
Qed.

Lemma iterable_masks_later_candidates_witness :
  toLowerCase "Iterable" = "iterable" /\
  typeMatches ("string" ++ "|" ++ "Iterable" ++ "|" ++ "int") five =
  typeMatches ("string" ++ "|" ++ "Iterable") five.
Proof.
  split; [reflexivity|].
  apply (proj1 (proj2 (proj2 iterable_masks_later_candidates))
           "string" "Iterable" "int" five).
  reflexivity.
Defined.

(** C5: the refined type of [Infinity], of [-Infinity] and of [NaN] is
    ["int"]; no number that fails the finiteness test becomes ["float"]. *)
Theorem toType_non_finite :
  toType (VNumber (Infinity false)) = Return "int" /\
  toType (VNumber (Infinity true)) = Return "int" /\
  toType (VNumber NaN) = Return "int" /\
  (forall x : number,
     JSNumber.finite x = false -> toType (VNumber x) = Return "int").
Proof.
  repeat split. intros [| | |] H; try reflexivity; discriminate.
Qed.

Lemma toType_non_finite_witness :
  JSNumber.finite (Infinity true) = false /\
  toType (VNumber (Infinity true)) = Return "int".
Proof.
  split; [reflexivity|].
  apply (proj2 (proj2 (proj2 toType_non_finite))). reflexivity.
Defined.






(** C7 (as stated, refuted): [define] raises although [typeMatches] is
    not false, and with an error that quotes neither the expression nor
    a refined type: the TypeError of [toType], the ReferenceError of the
    element test. *)
Lemma define_raises_without_mismatch :
  (define "mixed" bare_number_object = ThrowTypeError /\
   typeMatches "mixed" bare_number_object <> Return false) /\
  (define "htmlelement" node_like_object = ThrowReferenceError /\
   typeMatches "htmlelement" node_like_object <> Return false).
Proof. repeat split; discriminate. Qed.

(** C7 (amended): [define(E, v)] returns [v] itself when
    [typeMatches(E, v)] is true; it throws its own error exactly when
    [typeMatches(E, v)] is false, and the message of that error quotes
    [E] as given and [toType(v)]; an error that [typeMatches(E, v)]
    throws, [define(E, v)] throws unchanged. *)
Theorem define_returns_or_raises (E : string) (v : Value) :
  (typeMatches E v = Return true -> define E v = Return v) /\
  (typeMatches E v = Return false ->
   exists t, toType v = Return t /\
     define E v =
       Throw ("The value must be of type [" ++ E ++ "], [" ++ t ++
              "] given.")) /\
  ((exists message, define E v = Throw message) <->
   typeMatches E v = Return false) /\
  (typeMatches E v = ThrowTypeError -> define E v = ThrowTypeError) /\
  (typeMatches E v = ThrowReferenceError -> define E v = ThrowReferenceError).
Proof.
  assert (Hfalse : typeMatches E v = Return false ->
    exists t, toType v = Return t /\
      define E v =
        Throw ("The value must be of type [" ++ E ++ "], [" ++ t ++
               "] given.")).
  { intros H. unfold define. rewrite H. cbn [bind negb].
    rewrite typeMatches_labels in H.
    apply bind_returned in H as (t & Ht & _).
    exists t. now rewrite Ht. }
  split; [|split; [exact Hfalse|split; [|split]]].
  - intros H. unfold define. now rewrite H.
  - split.
    + intros [message H]. unfold define in H.
      pose proof (typeMatches_no_Error E v message) as Hno.
      destruct (typeMatches E v) as [[]|m| |]; cbn [bind negb] in H;
        try discriminate H; [reflexivity|].
      injection H as ->. now destruct Hno.
    + intros H. destruct (Hfalse H) as (t & _ & Hd). eauto.
  - intros H. unfold define. now rewrite H.
  - intros H. unfold define. now rewrite H.
Qed.

Lemma define_returns_or_raises_witness :
  (typeMatches "int" five = Return true /\ define "int" five = Return five) /\
  (typeMatches "int" (VString "5") = Return false /\
   exists t, toType (VString "5") = Return t /\
     define "int" (VString "5") =
       Throw ("The value must be of type [" ++ "int" ++ "], [" ++ t ++
              "] given.")) /\
  define "mixed" bare_number_object = ThrowTypeError.
Proof.
  split; [|split].
  - split; [reflexivity|].
    apply (proj1 (define_returns_or_raises "int" five)). reflexivity.
  - split; [reflexivity|].
    apply (proj1 (proj2 (define_returns_or_raises "int" (VString "5")))).
    reflexivity.
  - apply (proj1 (proj2 (proj2 (proj2
             (define_returns_or_raises "mixed" bare_number_object))))).
    reflexivity.
Defined.

(** C9: matching ignores the case of the labels: two expressions that are
    the same up to the case of their letters (["INT|Float"] and
    ["int|float"]) match the same values. *)
Theorem matching_ignores_case (E E' : string) (v : Value) :
  toLowerCase E = toLowerCase E' -> typeMatches E v = typeMatches E' v.
Proof.
  intros H.
  rewrite <- (typeMatches_toLowerCase E), <- (typeMatches_toLowerCase E').
  now rewrite H.
Qed.

Lemma matching_ignores_case_witness :
  toLowerCase "INT|Float" = toLowerCase "int|float" /\
  typeMatches "INT|Float" (VNumber twelve_point_five) =
  typeMatches "int|float" (VNumber twelve_point_five).
Proof.
  split; [reflexivity|].
  apply (matching_ignores_case "INT|Float" "int|float"). reflexivity.
Defined.

(** Replacing one label by a variant of another case, within any
    expression. *)
Lemma label_case_is_irrelevant (before l l' after : string) (v : Value) :
  toLowerCase l = toLowerCase l' ->
  typeMatches (before ++ l ++ after) v = typeMatches (before ++ l' ++ after) v.
Proof.
  intros H.
  rewrite <- (typeMatches_toLowerCase (before ++ l ++ after)).
  rewrite <- (typeMatches_toLowerCase (before ++ l' ++ after)).
  now rewrite !toLowerCase_app, H.
Qed.

(* ===================================================================== *)
(** ** Numbers: text and integrality *)
(* ===================================================================== *)

Import Rfloat.

Lemma digit_is_not_minus (c : ascii) :
  is_digit c = true -> Ascii.eqb c "-" = false.
Proof. each_char c. Qed.

Lemma all_digits_app (a b : string) :
  all_digits (a ++ b) = all_digits a && all_digits b.
Proof.
  induction a as [|c r IH]; [reflexivity|].
  change (String c r ++ b) with (String c (r ++ b)).
  cbn [all_digits]. now rewrite IH, andb_assoc.
Qed.

Lemma all_digits_uint (u : Decimal.uint) :
  all_digits (NilEmpty.string_of_uint u) = true.
Proof. induction u; cbn; auto. Qed.

Lemma all_digits_digits (m : positive) : all_digits (JSNumber.digits m) = true.
Proof. apply all_digits_uint. Qed.

Lemma all_digits_rstrip (d : string) :
  all_digits d = true -> all_digits (JSNumber.rstrip_zeros d) = true.
Proof.
  induction d as [|c r IH]; [reflexivity|].
  cbn [all_digits JSNumber.rstrip_zeros]. intros H.
  apply andb_true_iff in H as [Hc Hr].
  destruct (_ && _); [reflexivity|].
  cbn [all_digits]. now rewrite Hc, IH.
Qed.

Lemma all_digits_significand (m : positive) :
  all_digits (JSNumber.significand m) = true.
Proof. apply all_digits_rstrip, all_digits_digits. Qed.

Lemma all_digits_zeros (n : nat) : all_digits (JSNumber.zeros n) = true.
Proof. induction n; [reflexivity | exact IHn]. Qed.

Lemma all_digits_substring (n m : nat) (s : string) :
  all_digits s = true -> all_digits (substring n m s) = true.
Proof.
  revert n m. induction s as [|c r IH]; intros n m H.
  - destruct n, m; reflexivity.
  - cbn [all_digits] in H. apply andb_true_iff in H as [Hc Hr].
    destruct n as [|n]; destruct m as [|m]; cbn [substring all_digits];
      rewrite ?Hc; cbn [andb]; auto.
Qed.

Lemma skip_digits_app (d rest : string) :
  all_digits d = true -> skip_digits (d ++ rest) = skip_digits rest.
Proof.
  induction d as [|c r IH]; [reflexivity|].
  change (String c r ++ rest) with (String c (r ++ rest)).
  cbn [all_digits skip_digits]. intros H.
  apply andb_true_iff in H as [Hc Hr]. now rewrite Hc, IH.
Qed.

(** The pattern on a signed run of digits followed by [rest]. *)
Lemma test_after_digits (negative : bool) (d rest : string) :
  all_digits d = true ->
  skip_minus rest = rest ->
  test (JSNumber.sign_text negative ++ d ++ rest) =
  fraction_to_end (skip_digits rest).
Proof.
  intros Hd Hrest. unfold test.
  assert (Hplain : skip_minus (d ++ rest) = d ++ rest).
  { destruct d as [|c r]; [exact Hrest|].
    change (String c r ++ rest) with (String c (r ++ rest)).
    cbn [all_digits] in Hd. apply andb_true_iff in Hd as [Hc _].
    cbn [skip_minus]. now rewrite (digit_is_not_minus c Hc). }
  destruct negative.
  - change (JSNumber.sign_text true ++ d ++ rest)
      with (String "-" (d ++ rest)).
    cbn [skip_minus]. change (Ascii.eqb "-" "-") with true. cbv iota.
    now rewrite skip_digits_app.
  - change (JSNumber.sign_text false ++ d ++ rest) with (d ++ rest).
    now rewrite Hplain, skip_digits_app.
Qed.

Lemma string_app_empty (s : string) : s ++ "" = s.
Proof.
  induction s as [|c r IH]; [reflexivity|].
  change (String c r ++ "") with (String c (r ++ "")). now rewrite IH.
Qed.

Lemma test_digits_only (negative : bool) (d : string) :
  all_digits d = true -> test (JSNumber.sign_text negative ++ d) = false.
Proof.
  intros Hd. rewrite <- (string_app_empty d).
  now rewrite test_after_digits.
Qed.

Lemma test_with_exponent (negative : bool) (d rest : string) :
  all_digits d = true ->
  test (JSNumber.sign_text negative ++ d ++ String "e" rest) = false.
Proof. intros Hd. now rewrite test_after_digits. Qed.

Lemma test_fraction_with_exponent (negative : bool) (d f rest : string) :
  all_digits d = true ->
  test (JSNumber.sign_text negative ++ d ++ String "." (f ++ String "e" rest))
  = false.
Proof.
  intros Hd. rewrite test_after_digits by easy.
  cbn [skip_digits]. change (is_digit ".") with false. cbv iota.
  cbn [fraction_to_end]. rewrite all_digits_app.
  cbn [all_digits]. change (is_digit "e") with false.
  now rewrite andb_false_r, andb_false_r.
Qed.

(** The text of a number that [Number.isInteger] accepts never has the
    shape of [rfloat]: it is a run of digits, or it carries an exponent. *)
Lemma integer_text_is_not_fractional (x : number) :
  JSNumber.isInteger x = true -> test (JSNumber.toString x) = false.
Proof.
  destruct x as [|s|s|s m e]; try discriminate; [reflexivity|].
  cbn [JSNumber.isInteger JSNumber.toString]. intros Hint. rewrite Hint.
  pose proof (all_digits_significand m) as Hs.
  destruct (_ && _).
  - apply test_digits_only.
    now rewrite all_digits_app, Hs, all_digits_zeros.
  - destruct (JSNumber.k_of m =? 1).
    + now apply test_with_exponent.
    + apply test_fraction_with_exponent.
      now apply all_digits_substring.
Qed.

Lemma integer_is_finite (x : number) :
  JSNumber.isInteger x = true -> JSNumber.finite x = true.
Proof. destruct x; auto. Qed.

(** A number is ["float"] exactly when it is finite and not an integer. *)
Lemma toType_float_iff (x : number) :
  toType (VNumber x) = Return "float" <->
  JSNumber.finite x = true /\ JSNumber.isInteger x = false.
Proof.
  rewrite toType_number.
  destruct (JSNumber.isInteger x) eqn:Hint.
  - rewrite (integer_text_is_not_fractional x Hint), andb_false_r.
    split; [discriminate | intros [_ H]; discriminate].
  - rewrite orb_true_r, andb_true_r.
    destruct (JSNumber.finite x); split; auto; try discriminate.
    intros [H _]; discriminate.
Qed.

(** Only a number or an object bears a name that [toType] reads as
    ["int"]: the tests [isFinite(obj)] and [rfloat.test(obj)] reach no
    other value. *)
Lemma int_typed_is_number_or_object (obj : Value) :
  nullish obj = false ->
  (toLowerCase (raw_type obj) === "number") ||
  (toLowerCase (raw_type obj) === "int") = true ->
  (exists x, obj = VNumber x) \/ (exists o, obj = VObject o).
Proof.
  destruct obj as [| |b|x|s| |z|o]; try discriminate; eauto.
Qed.

(** C1: on a number, [toType] answers ["int"] when the number is an
    integer whose text has no fractional part (so for [12.0]), and
    ["float"] when the number is finite and either its text has the shape
    of [rfloat] or it is not an integer (so for [12.5]). *)
Theorem toType_int_or_float (x : number) :
  (JSNumber.isInteger x = true ->
   test (JSNumber.toString x) = false ->
   toType (VNumber x) = Return "int") /\
  (JSNumber.finite x = true ->
   test (JSNumber.toString x) = true \/ JSNumber.isInteger x = false ->
   toType (VNumber x) = Return "float").
Proof.
  rewrite toType_number. split.
  - intros Hint Htext. now rewrite Hint, Htext, andb_false_r.
  - intros Hfin [Htext | Hint]; rewrite Hfin.
    + now rewrite Htext.
    + now rewrite Hint, orb_true_r.
Qed.

Lemma toType_int_or_float_witness :
  (JSNumber.isInteger twelve_point_zero = true /\
   test (JSNumber.toString twelve_point_zero) = false /\
   toType (VNumber twelve_point_zero) = Return "int") /\
  (JSNumber.finite twelve_point_five = true /\
   JSNumber.isInteger twelve_point_five = false /\
   toType (VNumber twelve_point_five) = Return "float").
Proof.
  split; (split; [reflexivity|]; split; [reflexivity|]).
  - apply (proj1 (toType_int_or_float twelve_point_zero)); reflexivity.
  - apply (proj2 (toType_int_or_float twelve_point_five));
      [reflexivity | right; reflexivity].
Defined.

(* ===================================================================== *)
(** ** Labels no value answers to *)
(* ===================================================================== *)

Lemma types_catalog :
  types = ["int"; "float"; "string"; "bool"; "array"; "object"; "callable";
           "iterable"; "mixed"; "null"; "false"; "true"].
Proof. reflexivity. Qed.

Lemma class2type_names_list :
  class2type_names = ["boolean"; "number"; "string"; "function"; "array";
                      "date"; "regexp"; "object"; "error"; "symbol"].
Proof. reflexivity. Qed.

(** Every entry of [class2type] holds one of the ten names. *)
Lemma class2type_values (key name : string) :
  class2type !! key = Some name -> member_of name class2type_names = true.
Proof.
  unfold class2type, Each.
  replace class_names with
    ["Boolean"; "Number"; "String"; "Function"; "Array"; "Date"; "RegExp";
     "Object"; "Error"; "Symbol"] by reflexivity.
  cbn [Each_from]. intros H.
  repeat (apply lookup_insert_Some in H as [[_ <-] | [_ H]];
          [reflexivity|]).
  rewrite lookup_empty in H. discriminate.
Qed.

(** The refined type of a value that has one: the lower-cased name, with
    [number] read as [int] or [float]. *)
Lemma toType_returned (obj : Value) (t : string) :
  toType obj = Return t ->
  nullish obj = true /\ t = isType obj \/
  nullish obj = false /\
  (t = toLowerCase (raw_type obj) /\
   (toLowerCase (raw_type obj) === "number") = false \/
   t = "int" \/ t = "float").
Proof.
  destruct obj as [| |b|x|s| |z|o];
    try (intros H; injection H as <-; auto 6; fail).
  - rewrite toType_number. intros H. injection H as <-.
    right. split; [reflexivity|]. destruct (_ && _); auto.
  - rewrite toType_object. cbv zeta. intros H. right.
    split; [reflexivity|].
    destruct (toLowerCase (raw_type (VObject o)) === "number") eqn:En.
    + change ("int" === "int") with true in H. cbv iota in H.
      destruct (toNumberResult o) as [x|]; try discriminate H.
      destruct (JSNumber.finite x); [|injection H as <-; auto].
      destruct (toStringResult o); [|discriminate H].
      injection H as <-; auto.
    + destruct (toLowerCase (raw_type (VObject o)) === "int") eqn:Ei.
      * apply seq_true in Ei.
        destruct (toNumberResult o) as [x|]; try discriminate H.
        destruct (JSNumber.finite x); [|injection H as <-; auto].
        destruct (toStringResult o); [|discriminate H].
        injection H as <-; auto.
      * injection H as <-. auto.
Qed.

(** [isType] answers with a name of the catalog, a name of the class-tag
    table, or the refined type. *)
Lemma isType_is_accepted (obj : Value) (t : string) :
  toType obj = Return t ->
  member_of (isType obj) types || member_of (isType obj) class2type_names ||
  (isType obj === t) = true.
Proof.
  destruct obj as [| |b|x|s| |z|o];
    try (intros H; injection H as <-; reflexivity).
  - intros _. reflexivity.
  - intros _. unfold isType, typeof.
    assert (Hif : ((if callable o then "function" else "object") === "object")
                  || ((if callable o then "function" else "object")
                      === "function")
                  = true) by (destruct (callable o); reflexivity).
    rewrite Hif.
    destruct (class2type !! Object_prototype_toString (VObject o))
      as [name|] eqn:E; [|reflexivity].
    destruct (name === ""); [reflexivity|].
    now rewrite (class2type_values _ _ E), orb_true_r.
Qed.

Lemma accepted_name_false (ofType t : string) :
  accepted_name ofType t = false ->
  member_of t types = false /\ member_of t class2type_names = false /\
  (t === ofType) = false /\ (t === slice ofType 0 (Some 4)) = false /\
  (t === "htmlelement") = false.
Proof.
  unfold accepted_name. intros H.
  repeat match goal with
         | H : (_ || _) = false |- _ => apply orb_false_iff in H; destruct H
         end.
  auto.
Qed.

Lemma not_isType (obj : Value) (ofType t : string) :
  toType obj = Return ofType ->
  accepted_name ofType t = false -> (t === isType obj) = false.
Proof.
  intros Hof H. apply accepted_name_false in H as (H1 & H2 & H3 & _).
  pose proof (isType_is_accepted obj ofType Hof) as Hacc.
  destruct (t === isType obj) eqn:E; [|reflexivity].
  apply seq_true in E. rewrite <- E in Hacc.
  unfold seq in *. rewrite H1, H2, H3 in Hacc. discriminate.
Qed.

Lemma member_of_types_false (t : string) :
  member_of t types = false ->
  (t === "callable") = false /\ (t === "iterable") = false /\
  (t === "mixed") = false /\ (t === "false") = false /\ (t === "true") = false.
Proof.
  rewrite types_catalog. cbn [member_of existsb]. intros H.
  repeat match goal with
         | H : (_ || _) = false |- _ => apply orb_false_iff in H; destruct H
         end.
  auto.
Qed.

(** A candidate outside the accepted names fires no branch of the loop. *)
Lemma candidates_skip (l : string) (rest : list string) (obj : Value)
    (ofType : string) (matched : bool) :
  toType obj = Return ofType ->
  accepted_name ofType (toLowerCase l) = false ->
  candidates (l :: rest) obj ofType matched =
  candidates rest obj ofType matched.
Proof.
  intros Hof H.
  pose proof (not_isType _ _ _ Hof H) as HisType.
  apply accepted_name_false in H as (Hcat & _ & Hto & Hprefix & Helement).
  apply member_of_types_false in Hcat as (Hc & Hi & Hm & Hf & Ht).
  rewrite candidates_step_idle by now apply element_test_other.
  rewrite Hc, Hi, Hm, Hto, Hprefix, HisType.
  assert (Hb : match obj with
               | VBoolean b => toLowerCase l === boolean_text b
               | _ => false
               end = false).
  { destruct obj as [| |[]| | | | |]; auto. }
  rewrite Hb. reflexivity.
Qed.

Lemma candidates_unaccepted (ls : list string) (obj : Value)
    (ofType : string) (matched : bool) :
  toType obj = Return ofType ->
  Forall (fun l => accepted_name ofType (toLowerCase l) = false) ls ->
  candidates ls obj ofType matched = Return matched.
Proof.
  intros Hof. induction 1 as [|l rest Hl _ IH]; [reflexivity|].
  now rewrite (candidates_skip l rest obj ofType matched Hof Hl).
Qed.

(** C4 (as stated, refuted): the label ["stri"] is no name of the
    catalog, no name of the class-tag table and not the constructor-derived
    name of the string ["hello"], yet it matches it (by its first four
    characters), and [define] returns. *)
Lemma unrecognized_label_matches :
  Forall (fun l => recognized (VString "hello") (toLowerCase l) = false)
    (labels "stri") /\
  typeMatches "stri" (VString "hello") = Return true /\
  define "stri" (VString "hello") = Return (VString "hello").
Proof. repeat split. repeat constructor. Qed.

(** More labels outside the recognized names that match: the refined type
    of [undefined], any label behind the marker for a nullish value, the
    reserved name of element nodes. *)
Lemma unrecognized_labels_that_match :
  (recognized VUndefined "undefined" = false /\
   typeMatches "undefined" VUndefined = Return true) /\
  (recognized VNull "foo" = false /\ typeMatches "?foo" VNull = Return true) /\
  (recognized body_element "htmlelement" = false /\
   typeMatches "HTMLElement" body_element = Return true).
Proof. repeat split. Qed.

(** C4 (amended): when the expression is not a marked one facing a
    nullish value, and each of its labels, lower-cased, is outside the
    catalog, the names of the class-tag table, the refined type of the
    value, the first four characters of that refined type and the reserved
    name [htmlelement], then [typeMatches] is false and [define] throws. *)
Theorem unaccepted_labels_never_match (E : string) (v : Value) (t : string) :
  toType v = Return t ->
  (slice E 0 (Some 1) === "?") && nullish v = false ->
  Forall (fun l => accepted_name t (toLowerCase l) = false) (labels E) ->
  typeMatches E v = Return false /\
  define E v =
    Throw ("The value must be of type [" ++ E ++ "], [" ++ t ++ "] given.").
Proof.
  intros Ht Hm Hl.
  assert (H : typeMatches E v = Return false).
  { rewrite typeMatches_labels, Ht, Hm. cbn [bind].
    now apply candidates_unaccepted. }
  split; [exact H|]. unfold define. now rewrite H, Ht.
Qed.

Lemma unaccepted_labels_never_match_witness :
  typeMatches "?integer|Text" (VString "hello") = Return false /\
  define "?integer|Text" (VString "hello") =
    Throw ("The value must be of type [" ++ "?integer|Text" ++ "], [" ++
           "string" ++ "] given.").
Proof.
  apply (unaccepted_labels_never_match "?integer|Text" (VString "hello")
           "string").
  - reflexivity.
  - reflexivity.
  - repeat constructor.
Defined.

(* ===================================================================== *)
(** ** The generated accessors *)
(* ===================================================================== *)

(** What the loop over the catalog has left in [typeh] for one label. *)
Lemma typeh_entries :
  Forall (fun type =>
    typeh !! type = Some (fn_required type) /\
    typeh !! ("_" ++ type) = Some (fn_optional type) /\
    typeh !! predicate_name type =
      if type === "mixed" then None else Some (fn_predicate type))
    types.
Proof.
  rewrite types_catalog.
  repeat (constructor; [split; [|split]; vm_compute; reflexivity|]).
  constructor.
Qed.

(** A label of the catalog is an expression of that one label, without
    marker, and it does not read [htmlelement]. *)
Lemma catalog_labels :
  Forall (fun L =>
    (slice L 0 (Some 1) === "?") = false /\ labels L = [L] /\
    toLowerCase L = L /\ (L === "htmlelement") = false) types.
Proof.
  rewrite types_catalog. repeat constructor.
Qed.

(** For a label of the catalog [typeMatches] throws only what [toType]
    throws. *)
Lemma catalog_label_returns :
  Forall (fun L => forall (v : Value) (t : string),
    toType v = Return t -> exists b, typeMatches L v = Return b) types.
Proof.
  eapply Forall_impl; [exact catalog_labels|].
  intros L (Hm & Hl & Hlow & Hh) v t Ht.
  rewrite typeMatches_labels, Ht, Hl. cbn [bind].
  apply candidates_returns. constructor; [|constructor].
  rewrite Hlow. now apply seq_false.
Qed.

(** C8 (as stated, refuted): a generated predicate can raise: [isInt]
    throws the TypeError of [toType] on an object named [Number] that
    yields no number. *)
Lemma generated_predicate_raises :
  typeMatches "int" bare_number_object = ThrowTypeError /\
  invoke (fun _ => NaN) (fun _ => NaN) "isInt" bare_number_object =
    Some ThrowTypeError.
Proof. split; vm_compute; reflexivity. Qed.

Section GeneratedAccessors.

Variable StringToNumber : string -> number.
Variable parseFloat_text : string -> number.

(** C8 (amended): for every label [L] of the catalog and every value [v],
    the generated [L(v)] is [define(L, v)], the generated [_L(v)] is
    [define("?" + L, v)], and, [mixed] apart (for which no predicate is
    generated), the generated predicate [isL(v)] is [typeMatches(L, v)]:
    it returns the same boolean, throws what [typeMatches(L, v)] throws,
    and does not throw for a value for which [toType(v)] returns. *)
Theorem generated_accessors :
  Forall (fun L => forall v : Value,
    invoke StringToNumber parseFloat_text L v = Some (define L v) /\
    invoke StringToNumber parseFloat_text ("_" ++ L) v =
      Some (define ("?" ++ L) v) /\
    if L === "mixed" then typeh !! predicate_name L = None
    else invoke StringToNumber parseFloat_text (predicate_name L) v =
           Some (on_return VBoolean (typeMatches L v)) /\
         forall t, toType v = Return t ->
           exists b,
             typeMatches L v = Return b /\
             invoke StringToNumber parseFloat_text (predicate_name L) v =
               Some (Return (VBoolean b)))
    types.
Proof.
  pose proof typeh_entries as He. pose proof catalog_label_returns as Hr.
  rewrite Forall_forall in *. intros L HL v.
  destruct (He L HL) as (Hreq & Hopt & Hpred). specialize (Hr L HL v).
  unfold invoke. rewrite Hreq, Hopt, Hpred.
  destruct (L === "mixed"); (split; [|split]); try reflexivity.
  split; [reflexivity|].
  intros t Ht. destruct (Hr t Ht) as [b Hb]. exists b.
  split; [exact Hb|]. cbn [call2 call1 call0]. now rewrite Hb.
Qed.

(** The names of the generated predicates. *)
Lemma predicate_names :
  map predicate_name types =
  ["isInt"; "isFloat"; "isString"; "isBool"; "isArray"; "isObject";
   "isCallable"; "isIterable"; "isMixed"; "isNull"; "isFalse"; "isTrue"].
Proof. reflexivity. Qed.

(** C10: the generated predicate [isInt] returns [true] for [NaN],
    [Infinity] and [-Infinity], whose refined type is ["int"], and
    [isNumeric] returns [false] for the three of them, the difference
    [obj - parseFloat(obj)] being NaN for every number that is not
    finite. *)
Theorem isInt_and_isNumeric_on_non_finite :
  (invoke StringToNumber parseFloat_text "isInt" (VNumber NaN) =
     Some (Return (VBoolean true)) /\
   invoke StringToNumber parseFloat_text "isInt" (VNumber (Infinity false)) =
     Some (Return (VBoolean true)) /\
   invoke StringToNumber parseFloat_text "isInt" (VNumber (Infinity true)) =
     Some (Return (VBoolean true))) /\
  (invoke StringToNumber parseFloat_text "isNumeric" (VNumber NaN) =
     Some (Return (VBoolean false)) /\
   invoke StringToNumber parseFloat_text "isNumeric" (VNumber (Infinity false)) =
     Some (Return (VBoolean false)) /\
   invoke StringToNumber parseFloat_text "isNumeric" (VNumber (Infinity true)) =
     Some (Return (VBoolean false))) /\
  (forall x : number,
     self_minus_parseFloat_isNaN StringToNumber parseFloat_text (VNumber x) =
     Some (negb (JSNumber.finite x))).
Proof.
  split; [|split]; [split; [|split] .. |]; try (vm_compute; reflexivity).
  intros [|[]|[]|s m e]; reflexivity.
Qed.

End GeneratedAccessors.

Lemma generated_accessors_witness :
  exists b,
    typeMatches "int" five = Return b /\
    invoke (fun _ => NaN) (fun _ => NaN) (predicate_name "int") five =
      Some (Return (VBoolean b)).
Proof.
  pose proof (generated_accessors (fun _ => NaN) (fun _ => NaN)) as H.
  rewrite types_catalog in H.
  apply (proj2 (proj2 (proj2 (Forall_inv H five))) "int").
  reflexivity.
Defined.
(* ===================================================================== *)
(** ** Prefixes of four characters *)
(* ===================================================================== *)

Lemma substring_beyond (n : nat) (s : string) :
  (String.length s <= n)%nat -> substring 0 n s = s.
Proof.
  revert n. induction s as [|c r IH]; intros n H.
  - destruct n; reflexivity.
  - destruct n as [|n]; cbn [String.length] in H; [lia|].
    cbn [substring]. rewrite IH by lia. reflexivity.
Qed.

Lemma substring_prefix_length (n : nat) (s : string) :
  (n <= String.length s)%nat -> String.length (substring 0 n s) = n.
Proof.
  revert n. induction s as [|c r IH]; intros n H.
  - destruct n; cbn [String.length] in *; [reflexivity | lia].
  - destruct n as [|n]; [reflexivity|].
    cbn [String.length] in H. cbn [substring String.length].
    rewrite IH by lia. reflexivity.
Qed.

(** [s.slice(0, 4)] is [s] itself when [s] has four characters at most,
    and has exactly four characters otherwise. *)
Lemma slice_prefix_cases (s : string) :
  ((String.length s <= 4)%nat /\ slice s 0 (Some 4) = s) \/
  ((4 < String.length s)%nat /\ String.length (slice s 0 (Some 4)) = 4%nat).
Proof.
  unfold slice.
  replace (0 <? 0) with false by reflexivity.
  replace (4 <? 0) with false by reflexivity.
  set (len := Z.of_nat (String.length s)).
  replace (Z.to_nat (Z.min 0 len)) with 0%nat by lia.
  destruct (le_lt_dec (String.length s) 4) as [Hle | Hgt].
  - left. split; [exact Hle|].
    replace (Z.to_nat (Z.max (Z.min 4 len - Z.min 0 len) 0))
      with (String.length s) by lia.
    apply substring_whole.
  - right. split; [exact Hgt|].
    replace (Z.to_nat (Z.max (Z.min 4 len - Z.min 0 len) 0))
      with 4%nat by lia.
    apply substring_prefix_length. lia.
Qed.

(** A label shorter than four characters equals the prefix exactly when
    it equals the whole. *)
Lemma short_label_prefix (t s : string) :
  (String.length t < 4)%nat ->
  (t === slice s 0 (Some 4)) = (t === s).
Proof.
  intros Ht. destruct (slice_prefix_cases s) as [[_ ->] | [Hs Hp]];
    [reflexivity|].
  transitivity false; [|symmetry]; apply seq_false; intros ->; lia.
Qed.

(** A label longer than four characters never equals the prefix. *)
Lemma long_label_prefix (t s : string) :
  (4 < String.length t)%nat -> (t === slice s 0 (Some 4)) = false.
Proof.
  intros Ht. apply seq_false. intros ->.
  pose proof (slice_prefix_length s). lia.
Qed.

(** A label of four characters that equals the whole equals the prefix. *)
Lemma exact_label_prefix (t s : string) :
  String.length t = 4%nat ->
  (t === slice s 0 (Some 4)) || (t === s) = (t === slice s 0 (Some 4)).
Proof.
  intros Ht. destruct (t === s) eqn:E; [|apply orb_false_r].
  apply seq_true in E. subst s.
  destruct (slice_prefix_cases t) as [[_ ->] | [Hs _]]; [|lia].
  now rewrite seq_refl.
Qed.

(* ===================================================================== *)
(** ** The coarse and the refined type *)
(* ===================================================================== *)

Lemma coarse_names_list :
  coarse_names =
  ["undefined"; "null"; "boolean"; "number"; "string"; "symbol"; "bigint";
   "object"; "boolean"; "number"; "string"; "function"; "array"; "date";
   "regexp"; "object"; "error"; "symbol"].
Proof. reflexivity. Qed.

Lemma member_of_app (t : string) (a b : list string) :
  member_of t (a ++ b)%list = member_of t a || member_of t b.
Proof. apply existsb_app. Qed.

(** The answer of [isType] is one of the coarse names. *)
Lemma isType_in_coarse_names (obj : Value) :
  member_of (isType obj) coarse_names = true.
Proof.
  destruct obj as [| |b|x|s| |z|o]; try reflexivity.
  unfold isType, typeof.
  replace (((if callable o then "function" else "object") === "object") ||
           ((if callable o then "function" else "object") === "function"))
    with true by (destruct (callable o); reflexivity).
  destruct (class2type !! Object_prototype_toString (VObject o))
    as [name|] eqn:E; [|reflexivity].
  destruct (name === ""); [reflexivity|].
  unfold coarse_names. rewrite member_of_app.
  now rewrite (class2type_values _ _ E), orb_true_r.
Qed.

(** A label outside those names is never the coarse type. *)
Lemma not_coarse (t : string) (obj : Value) :
  member_of t coarse_names = false -> (t === isType obj) = false.
Proof.
  intros H. destruct (t === isType obj) eqn:E; [|reflexivity].
  apply seq_true in E. subst t. now rewrite isType_in_coarse_names in H.
Qed.

(** X1: [isType] answers with one of thirteen names, whatever the value:
    [undefined], [null], a [typeof] of a primitive, [object], or a name of
    the class-tag table. *)
Theorem isType_range (obj : Value) :
  In (isType obj)
    ["undefined"; "null"; "boolean"; "number"; "string"; "symbol"; "bigint";
     "object"; "function"; "array"; "date"; "regexp"; "error"].
Proof.
  pose proof (isType_in_coarse_names obj) as H.
  apply existsb_exists in H as (name & Hin & Heq).
  apply seq_true in Heq. rewrite Heq.
  rewrite coarse_names_list in Hin. cbn [In] in *. tauto.
Qed.

Lemma bracket_injective (a b : string) :
  "[object " ++ a ++ "]" = "[object " ++ b ++ "]" -> a = b.
Proof.
  intros H. change ("[object " ++ a ++ "]") with
    (String "[" (String "o" (String "b" (String "j" (String "e"
      (String "c" (String "t" (String " " (a ++ "]"))))))))) in H.
  change ("[object " ++ b ++ "]") with
    (String "[" (String "o" (String "b" (String "j" (String "e"
      (String "c" (String "t" (String " " (b ++ "]"))))))))) in H.
  injection H as H. revert b H.
  induction a as [|c r IH]; intros [|d q] H.
  - reflexivity.
  - change ("" ++ "]") with "]" in H.
    change (String d q ++ "]") with (String d (q ++ "]")) in H.
    injection H as _ H. destruct q; discriminate.
  - change ("" ++ "]") with "]" in H.
    change (String c r ++ "]") with (String c (r ++ "]")) in H.
    injection H as _ H. destruct r; discriminate.
  - change (String c r ++ "]") with (String c (r ++ "]")) in H.
    change (String d q ++ "]") with (String d (q ++ "]")) in H.
    injection H as -> H. now rewrite (IH q H).
Qed.

(** The table read back: the ten class tags give their lower-cased name,
    any other tag gives nothing. *)
Lemma class2type_lookup (tag : string) :
  class2type !! ("[object " ++ tag ++ "]") =
  if member_of tag class_names then Some (toLowerCase tag) else None.
Proof.
  unfold class2type, Each.
  replace class_names with
    ["Boolean"; "Number"; "String"; "Function"; "Array"; "Date"; "RegExp";
     "Object"; "Error"; "Symbol"] by reflexivity.
  cbn [Each_from member_of existsb].
  repeat (rewrite lookup_insert;
    match goal with
    | |- context [decide (?k = _)] =>
        destruct (decide (k = "[object " ++ tag ++ "]")) as [Heq | Hne]
    end;
    [ apply bracket_injective in Heq; subst tag; reflexivity
    | match goal with
      | |- context [tag === ?n] =>
          replace (tag === n) with false
            by (symmetry; apply seq_false; intros ->; now apply Hne)
      end; clear Hne; cbn [orb] ]).
  now rewrite lookup_empty.
Qed.

(** [isType] on an object or a function: the entry of its class tag. *)
Lemma isType_object_entry (o : object Value) :
  isType (VObject o) =
  match class2type !! ("[object " ++ classTag o ++ "]") with
  | Some name => if name === "" then "object" else name
  | None => "object"
  end.
Proof.
  unfold isType, typeof.
  replace (((if callable o then "function" else "object") === "object") ||
           ((if callable o then "function" else "object") === "function"))
    with true by (destruct (callable o); reflexivity).
  reflexivity.
Qed.

(** X2: the coarse type of an object or a function is read off its class
    tag alone: the lower-cased tag for the ten tags of the table,
    ["object"] for every other one. *)
Theorem isType_of_object (o : object Value) :
  isType (VObject o) =
  if member_of (classTag o) class_names then toLowerCase (classTag o)
  else "object".
Proof.
  rewrite isType_object_entry, class2type_lookup.
  destruct (member_of (classTag o) class_names) eqn:E; [|reflexivity].
  replace (toLowerCase (classTag o) === "") with false; [reflexivity|].
  symmetry. apply seq_false. intros Hempty.
  destruct (classTag o); [discriminate E | discriminate Hempty].
Qed.

(** X3: a refined type that [toType] returns is in lower case, and it is
    never ["number"]. *)
Theorem toType_is_normalised (obj : Value) (t : string) :
  toType obj = Return t ->
  toLowerCase t = t /\ (t === "number") = false.
Proof.
  intros H. apply toType_returned in H as [[Hn ->] | [Hn H]].
  - destruct obj; try discriminate Hn; split; reflexivity.
  - destruct H as [[-> Hnum] | [-> | ->]]; try (split; reflexivity).
    split; [apply toLowerCase_idempotent | exact Hnum].
Qed.

Lemma toType_is_normalised_witness :
  toLowerCase "htmlbodyelement" = "htmlbodyelement" /\
  ("htmlbodyelement" === "number") = false.
Proof.
  apply (toType_is_normalised body_element "htmlbodyelement").
  reflexivity.
Defined.

(** X4: an object whose constructor is named [Number] (or [Int]) is
    never left ["int"] when its numeric value is finite:
    [Number.isInteger] rejects every object, so [new Number(12)] is
    ["float"]; and [toType] throws when the object yields no number, or
    a finite number and no string. *)
Theorem toType_of_number_object (o : object Value) :
  toLowerCase (raw_type (VObject o)) = "number" \/
  toLowerCase (raw_type (VObject o)) = "int" ->
  toType (VObject o) =
  match toNumberResult o with
  | Some x =>
      if JSNumber.finite x then
        match toStringResult o with
        | Some _ => Return "float"
        | None => ThrowTypeError
        end
      else Return "int"
  | None => ThrowTypeError
  end.
Proof.
  intros H. rewrite toType_object.
  destruct H as [-> | ->]; reflexivity.
Qed.

Lemma toType_of_number_object_witness :
  toType number_object = Return "float" /\
  toType (VNumber twelve) = Return "int".
Proof.
  split; [|reflexivity].
  apply (toType_of_number_object
           {| callable := false; classTag := "Number";
              constructorName := Some "Number";
              nodeTypeIs1 := false; instanceofHTMLElement := Some false;
              hasIterator := false;
              instanceofMap := false; instanceofSet := false;
              lengthProperty := VUndefined;
              toNumberResult := Some twelve; toStringResult := Some "12" |}).
  left. reflexivity.
Defined.

(** The guard of [toType] on a number, without the test of the text. *)
Lemma number_guard (x : number) :
  JSNumber.finite x &&
  (test (JSNumber.toString x) || negb (JSNumber.isInteger x)) =
  JSNumber.finite x && negb (JSNumber.isInteger x).
Proof.
  destruct (JSNumber.isInteger x) eqn:Hint.
  - now rewrite (integer_text_is_not_fractional x Hint).
  - now rewrite orb_true_r.
Qed.

(** X5: on a number the test of the text decides nothing: the refined
    type is ["float"] when the number is finite and not an integer, and
    ["int"] otherwise. *)
Theorem toType_of_number (x : number) :
  toType (VNumber x) =
  Return (if JSNumber.finite x && negb (JSNumber.isInteger x)
          then "float" else "int").
Proof.
  rewrite toType_number. now rewrite number_guard.
Qed.

(* ===================================================================== *)
(** ** One label at a time *)
(* ===================================================================== *)

Ltac literal s :=
  lazymatch s with
  | EmptyString => idtac
  | String (Ascii _ _ _ _ _ _ _ _) ?r => literal r
  end.

(** Decide the comparisons of two literal strings in the goal. *)
Ltac literal_tests :=
  repeat match goal with
         | |- context [?a === ?b] =>
             literal a; literal b;
             let r := eval vm_compute in (a === b) in
             match r with
             | true => change (a === b) with true
             | false => change (a === b) with false
             end
         end.

(** Open the loop on one literal label that does not read
    [htmlelement]. *)
Ltac one_label L :=
  rewrite (candidates_step_idle L)
    by (apply element_test_other; reflexivity);
  change (toLowerCase L) with L;
  literal_tests;
  rewrite ?andb_false_r; cbn [andb orb candidates].

(** From the loop on one label to [typeMatches] on that label. *)
Lemma typeMatches_one_label (L : string) (f : string -> bool) (v : Value) :
  (first L === "?") = false ->
  split "|" L = [L] ->
  (forall t, toType v = Return t -> candidates [L] v t false = Return (f t)) ->
  typeMatches L v = on_return f (toType v).
Proof.
  intros Hm Hs H. rewrite typeMatches_plain by exact Hm. rewrite Hs.
  unfold on_return.
  destruct (toType v) as [t| | |]; cbn [bind]; try reflexivity.
  now apply H.
Qed.

(** The text of a boolean is [true] or [false]. *)
Lemma not_boolean_text (t : string) (obj : Value) :
  (t === "true") = false -> (t === "false") = false ->
  match obj with
  | VBoolean b => t === boolean_text b
  | _ => false
  end = false.
Proof. intros Ht Hf. destruct obj as [| |[]| | | | |]; auto. Qed.

Lemma int_follows_toType (v : Value) :
  typeMatches "int" v = on_return (fun t => t === "int") (toType v).
Proof.
  apply typeMatches_one_label; try reflexivity. intros t _.
  one_label "int".
  rewrite not_boolean_text by reflexivity.
  rewrite short_label_prefix by (cbn; lia).
  rewrite (not_coarse "int") by reflexivity.
  unfold seq. rewrite (String.eqb_sym t).
  destruct (String.eqb "int" t); reflexivity.
Qed.

Lemma float_follows_toType (v : Value) :
  typeMatches "float" v = on_return (fun t => t === "float") (toType v).
Proof.
  apply typeMatches_one_label; try reflexivity. intros t _.
  one_label "float".
  rewrite not_boolean_text by reflexivity.
  rewrite long_label_prefix by (cbn; lia).
  rewrite (not_coarse "float") by reflexivity.
  unfold seq. rewrite (String.eqb_sym t).
  destruct (String.eqb "float" t); reflexivity.
Qed.

(** X6: [int] and [float] are decided by the refined type alone: the
    label accepts when [toType] returns it, refuses when [toType] returns
    another type, and throws what [toType] throws. *)
Theorem int_and_float_follow_toType (v : Value) :
  typeMatches "int" v = on_return (fun t => t === "int") (toType v) /\
  typeMatches "float" v = on_return (fun t => t === "float") (toType v).
Proof.
  split; [apply int_follows_toType | apply float_follows_toType].
Qed.

(** X7: every number is [int] or [float] and never both, so [int|float]
    accepts every number; it accepts no string. *)
Theorem numbers_are_int_or_float :
  (forall x : number,
     (exists b, typeMatches "float" (VNumber x) = Return b /\
                typeMatches "int" (VNumber x) = Return (negb b)) /\
     typeMatches "int|float" (VNumber x) = Return true) /\
  (forall s : string, typeMatches "int|float" (VString s) = Return false).
Proof.
  split.
  - intros x. rewrite int_follows_toType, float_follows_toType.
    rewrite (typeMatches_plain "int|float") by reflexivity.
    change (split "|" "int|float") with ["int"; "float"].
    rewrite toType_number. unfold on_return. cbn [bind].
    rewrite !candidates_step_idle
      by (apply element_test_primitive; discriminate).
    change (toLowerCase "int") with "int".
    change (toLowerCase "float") with "float".
    destruct (_ && _); (split; [eexists; split; reflexivity|]); reflexivity.
  - intros s.
    rewrite (typeMatches_plain "int|float") by reflexivity.
    change (split "|" "int|float") with ["int"; "float"].
    change (toType (VString s)) with (@Return string "string").
    cbn [bind].
    rewrite !candidates_step_idle
      by (apply element_test_primitive; discriminate).
    reflexivity.
Qed.

(** X8: [callable] goes by the name of the constructor, not by [typeof]:
    it accepts the values whose refined type is ["function"] (or
    ["callable"]), so an async function, whose constructor is
    [AsyncFunction], is refused. *)
Theorem callable_follows_toType :
  (forall v : Value,
     typeMatches "callable" v =
     on_return (fun t => (t === "function") || (t === "callable"))
       (toType v)) /\
  typeof async_function = "function" /\
  typeMatches "callable" async_function = Return false.
Proof.
  split; [|split; reflexivity]. intros v.
  apply typeMatches_one_label; try reflexivity. intros t _.
  one_label "callable".
  rewrite not_boolean_text by reflexivity.
  rewrite long_label_prefix by (cbn; lia).
  rewrite (not_coarse "callable") by reflexivity.
  unfold seq. rewrite (String.eqb_sym t "callable").
  destruct (String.eqb t "function");
    destruct (String.eqb "callable" t); reflexivity.
Qed.

(** The loop on the coarse type of the value as its one label. *)
Lemma candidates_coarse_type (v : Value) (t : string) (matched : bool) :
  candidates [isType v] v t matched = Return true.
Proof.
  pose proof (isType_in_coarse_names v) as Hr.
  rewrite coarse_names_list in Hr. cbn [member_of existsb] in Hr.
  repeat match type of Hr with
         | (_ || _) = true => apply orb_prop in Hr as [Hr | Hr]
         end;
    try discriminate Hr;
    apply seq_true in Hr;
    match type of Hr with
    | _ = ?L =>
        rewrite candidates_step, Hr;
        rewrite element_test_other by reflexivity;
        cbn [bind]; change (toLowerCase L) with L;
        literal_tests; rewrite ?orb_true_r; cbn [orb andb];
        repeat match goal with
               | |- (if ?c then _ else _) = _ => destruct c
               end;
        reflexivity
    end.
Qed.

(** X9: a value for which [toType] returns always matches the
    expression that is its own coarse type, and [define] returns it; when
    [toType] throws, both throw the same. *)
Theorem coarse_type_matches_itself (v : Value) :
  typeMatches (isType v) v = on_return (fun _ => true) (toType v) /\
  define (isType v) v = on_return (fun _ => v) (toType v).
Proof.
  assert (H : typeMatches (isType v) v = on_return (fun _ => true) (toType v)).
  { assert (Hl : (slice (isType v) 0 (Some 1) === "?") = false /\
                 labels (isType v) = [isType v]).
    { pose proof (isType_in_coarse_names v) as Hr.
      rewrite coarse_names_list in Hr. cbn [member_of existsb] in Hr.
      repeat match type of Hr with
             | (_ || _) = true => apply orb_prop in Hr as [Hr | Hr]
             end;
        try discriminate Hr; apply seq_true in Hr; rewrite Hr;
        split; reflexivity. }
    destruct Hl as [Hm Hl].
    rewrite typeMatches_labels, Hl, Hm. unfold on_return.
    destruct (toType v) as [t| | |]; cbn [bind]; try reflexivity.
    apply candidates_coarse_type. }
  split; [exact H|]. unfold define. rewrite H. unfold on_return.
  destruct (toType v) as [t| | |]; reflexivity.
Qed.

(* ===================================================================== *)
(** ** Expressions of several labels *)
(* ===================================================================== *)

Lemma or_else_true (b : completion bool) :
  or_else (Return true) b = Return true.
Proof. reflexivity. Qed.

Lemma or_else_false (b : completion bool) : or_else (Return false) b = b.
Proof. reflexivity. Qed.

(** Without [iterable] among the first candidates, the loop over two
    lists of candidates is the loop over the first list and, when that
    one refuses, the loop over the second. *)
Lemma candidates_app (lsA lsB : list string) (obj : Value) (ofType : string) :
  Forall (fun l => toLowerCase l <> "iterable") lsA ->
  candidates (lsA ++ lsB) obj ofType false =
  or_else (candidates lsA obj ofType false) (candidates lsB obj ofType false).
Proof.
  induction 1 as [|l rest Hl _ IH]; [reflexivity|].
  apply seq_false in Hl. cbn [app]. rewrite !candidates_step, Hl.
  destruct (element_test obj (toLowerCase l)) as [[]| | |];
    cbn [bind]; try reflexivity.
  repeat match goal with
         | |- (if ?c then _ else _) = _ => destruct c
         end; try reflexivity.
  exact IH.
Qed.

(** What was matched beforehand is never lost by a loop that accepts. *)
Lemma candidates_monotone (ls : list string) (obj : Value) (ofType : string) :
  candidates ls obj ofType false = Return true ->
  candidates ls obj ofType true = Return true.
Proof.
  induction ls as [|l rest IH]; [discriminate|].
  rewrite !candidates_step.
  destruct (element_test obj (toLowerCase l)) as [[]| | |];
    cbn [bind]; try discriminate; auto.
  repeat match goal with
         | |- (if ?c then _ else _) = _ -> _ => destruct c
         end; auto.
Qed.

(** What an expression accepts, the marked expression accepts. *)
Lemma marker_keeps (E : string) (v : Value) :
  (slice E 0 (Some 1) === "?") = false ->
  typeMatches E v = Return true -> typeMatches ("?" ++ E) v = Return true.
Proof.
  intros Hm. rewrite typeMatches_optional.
  rewrite typeMatches_labels, (labels_unmarked E Hm), Hm. cbn [andb].
  destruct (toType v) as [t| | |]; cbn [bind]; try discriminate.
  destruct (nullish v); [apply candidates_monotone | auto].
Qed.

(** The marker changes nothing for a value that is not nullish. *)
Lemma marker_idle (E : string) (v : Value) :
  (slice E 0 (Some 1) === "?") = false ->
  nullish v = false -> typeMatches ("?" ++ E) v = typeMatches E v.
Proof.
  intros Hm Hn. rewrite typeMatches_optional.
  rewrite typeMatches_labels, (labels_unmarked E Hm), Hm, Hn. reflexivity.
Qed.

(** X10: the marker only adds: what an expression accepts, the marked
    expression accepts as well, and for a value that is not nullish the
    two agree. *)
Theorem marker_only_adds (E : string) (v : Value) :
  (slice E 0 (Some 1) === "?") = false ->
  (typeMatches E v = Return true ->
   typeMatches ("?" ++ E) v = Return true) /\
  (nullish v = false -> typeMatches ("?" ++ E) v = typeMatches E v).
Proof.
  intros Hm. split.
  - now apply marker_keeps.
  - now apply marker_idle.
Qed.

Lemma marker_only_adds_witness :
  typeMatches "?string|array" (VString "Foo") = Return true /\
  typeMatches "?string|array" five = typeMatches "string|array" five.
Proof.
  split.
  - apply (proj1 (marker_only_adds "string|array" (VString "Foo") eq_refl)).
    reflexivity.
  - apply (proj2 (marker_only_adds "string|array" five eq_refl)).
    reflexivity.
Defined.

(** The candidates of [A|B], for an expression [B] without the marker. *)
Lemma labels_joined (A B : string) :
  (slice B 0 (Some 1) === "?") = false ->
  labels (A ++ "|" ++ B) = (labels A ++ labels B)%list /\
  (slice (A ++ "|" ++ B) 0 (Some 1) === "?") = (slice A 0 (Some 1) === "?").
Proof.
  intros HB. rewrite (labels_unmarked B HB).
  unfold labels. rewrite !slice_first.
  change (A ++ "|" ++ B) with (A ++ String "|" B).
  destruct A as [|c r].
  - change ("" ++ String "|" B) with (String "|" B). cbn [first].
    change (String "|" "" === "?") with false.
    change ("" === "?") with false. cbv iota.
    split; [|reflexivity].
    now rewrite <- (split_app "|" "" B).
  - change (String c r ++ String "|" B) with (String c (r ++ String "|" B)).
    cbn [first]. split; [|reflexivity].
    destruct (String c "" === "?").
    + rewrite !slice_rest. apply split_app.
    + change (String c (r ++ String "|" B))
        with (String c r ++ String "|" B). apply split_app.
Qed.

(** Without [iterable], [A|B] is [A] and, when [A] refuses, [B]. *)
Lemma joined_or_else (A B : string) (v : Value) :
  (slice B 0 (Some 1) === "?") = false ->
  Forall (fun l => toLowerCase l <> "iterable") (labels A) ->
  Forall (fun l => toLowerCase l <> "iterable") (labels B) ->
  typeMatches (A ++ "|" ++ B) v =
  or_else (typeMatches A v) (typeMatches B v).
Proof.
  intros HB HlA HlB.
  destruct (labels_joined A B HB) as [Hlabels Hmark].
  rewrite !typeMatches_labels, Hlabels, Hmark, HB. cbn [andb].
  destruct (toType v) as [t| | |]; cbn [bind]; try reflexivity.
  destruct ((slice A 0 (Some 1) === "?") && nullish v) eqn:Em.
  - apply andb_true_iff in Em as [_ Hn]. apply nullish_is_falsy in Hn.
    rewrite !candidates_matched; auto.
    apply Forall_app; auto.
  - now apply candidates_app.
Qed.

(** X11: the pipe is a sequential disjunction as long as no label reads
    [iterable]: [A|B] answers what [A] answers when [A] accepts or
    throws, and what [B] answers when [A] refuses ([B] without
    marker). *)
Theorem pipe_is_disjunction (A B : string) (v : Value) :
  (slice B 0 (Some 1) === "?") = false ->
  Forall (fun l => toLowerCase l <> "iterable") (labels A) ->
  Forall (fun l => toLowerCase l <> "iterable") (labels B) ->
  typeMatches (A ++ "|" ++ B) v =
  or_else (typeMatches A v) (typeMatches B v).
Proof. apply joined_or_else. Qed.

Lemma pipe_is_disjunction_witness :
  typeMatches ("htmlelement" ++ "|" ++ "object") node_like_object =
  or_else (typeMatches "htmlelement" node_like_object)
    (typeMatches "object" node_like_object).
Proof.
  apply (pipe_is_disjunction "htmlelement" "object" node_like_object).
  - reflexivity.
  - repeat constructor; discriminate.
  - repeat constructor; discriminate.
Defined.

(** An expression without a label that reads [htmlelement] returns when
    [toType] does. *)
Lemma typeMatches_returns (E : string) (v : Value) (t : string) :
  Forall (fun l => toLowerCase l <> "htmlelement") (labels E) ->
  toType v = Return t ->
  exists b, typeMatches E v = Return b.
Proof.
  intros H Ht. rewrite typeMatches_labels, Ht. cbn [bind].
  now apply candidates_returns.
Qed.

(** X12: without [iterable], without [htmlelement] and without marker,
    the order of two expressions joined by a pipe does not matter. *)
Theorem pipe_commutes (A B : string) (v : Value) :
  (slice A 0 (Some 1) === "?") = false ->
  (slice B 0 (Some 1) === "?") = false ->
  Forall (fun l => toLowerCase l <> "iterable") (labels A) ->
  Forall (fun l => toLowerCase l <> "iterable") (labels B) ->
  Forall (fun l => toLowerCase l <> "htmlelement") (labels A) ->
  Forall (fun l => toLowerCase l <> "htmlelement") (labels B) ->
  typeMatches (A ++ "|" ++ B) v = typeMatches (B ++ "|" ++ A) v.
Proof.
  intros HA HB HlA HlB HeA HeB.
  rewrite !joined_or_else by assumption.
  destruct (toType v) as [t| | |] eqn:Ht;
    try (rewrite !typeMatches_labels, Ht; reflexivity).
  destruct (typeMatches_returns A v t HeA Ht) as [a ->].
  destruct (typeMatches_returns B v t HeB Ht) as [b ->].
  destruct a, b; reflexivity.
Qed.

Lemma pipe_commutes_witness :
  typeMatches ("int" ++ "|" ++ "string|bool") (VBoolean true) =
  typeMatches ("string|bool" ++ "|" ++ "int") (VBoolean true).
Proof.
  apply (pipe_commutes "int" "string|bool" (VBoolean true));
    try reflexivity; repeat constructor; discriminate.
Defined.

(** X13: an expression without marker accepts [null] only through a
    label that reads [null] or [mixed], and [undefined] only through a
    label that reads [undefined], [unde] or [mixed]. *)
Theorem nullish_needs_its_label (E : string) :
  (slice E 0 (Some 1) === "?") = false ->
  (typeMatches E VNull = Return true ->
   Exists (fun l => toLowerCase l = "null" \/ toLowerCase l = "mixed")
     (split "|" E)) /\
  (typeMatches E VUndefined = Return true ->
   Exists (fun l => toLowerCase l = "undefined" \/ toLowerCase l = "unde" \/
                    toLowerCase l = "mixed")
     (split "|" E)).
Proof.
  intros Hm. rewrite !typeMatches_labels, (labels_unmarked E Hm), Hm.
  cbn [andb]. generalize (split "|" E) as ls. intros ls.
  change (toType VNull) with (@Return string "null").
  change (toType VUndefined) with (@Return string "undefined").
  cbn [bind]. split.
  - induction ls as [|l rest IH]; [discriminate|].
    rewrite candidates_step_idle by now apply element_test_falsy.
    cbn [nullish andb negb].
    change (isType VNull) with "null".
    change (slice "null" 0 (Some 4)) with "null".
    change ("null" === "function") with false. rewrite andb_false_r.
    cbn [orb].
    destruct (toLowerCase l === "iterable"); [discriminate|].
    destruct (toLowerCase l === "null") eqn:En.
    + intros _. apply Exists_cons_hd. left. now apply seq_true.
    + cbn [orb]. destruct (toLowerCase l === "mixed") eqn:Ex.
      * intros _. apply Exists_cons_hd. right. now apply seq_true.
      * intros H. apply Exists_cons_tl. now apply IH.
  - induction ls as [|l rest IH]; [discriminate|].
    rewrite candidates_step_idle by now apply element_test_falsy.
    cbn [nullish andb negb].
    change (isType VUndefined) with "undefined".
    change (slice "undefined" 0 (Some 4)) with "unde".
    change ("undefined" === "function") with false. rewrite andb_false_r.
    cbn [orb].
    destruct (toLowerCase l === "iterable"); [discriminate|].
    destruct (toLowerCase l === "unde") eqn:Ep.
    + intros _. apply Exists_cons_hd. right. left. now apply seq_true.
    + destruct (toLowerCase l === "undefined") eqn:En.
      * intros _. apply Exists_cons_hd. left. now apply seq_true.
      * cbn [orb]. destruct (toLowerCase l === "mixed") eqn:Ex.
        -- intros _. apply Exists_cons_hd. right. right. now apply seq_true.
        -- intros H. apply Exists_cons_tl. now apply IH.
Qed.

Lemma nullish_needs_its_label_witness :
  Exists (fun l => toLowerCase l = "null" \/ toLowerCase l = "mixed")
    (split "|" "string|Null").
Proof.
  apply (proj1 (nullish_needs_its_label "string|Null" eq_refl)).
  reflexivity.
Defined.

(* ===================================================================== *)
(** ** [setType] *)
(* ===================================================================== *)

Lemma passes_true (type : string) (obj : Value) :
  passes type obj = true <-> typeMatches type obj = Return true.
Proof.
  unfold passes. destruct (typeMatches type obj) as [[]| | |];
    split; intros H; try discriminate H; reflexivity.
Qed.

(** [define] on an entry that passes. *)
Lemma define_passes (type : string) (obj : Value) :
  passes type obj = true -> define type obj = Return obj.
Proof.
  intros H. apply passes_true in H. unfold define. now rewrite H.
Qed.

(** [setType] goes past the entries that pass. *)
Lemma setType_past (before rest : list (string * Value)) :
  all_pass before = true ->
  setType (before ++ rest) = setType rest.
Proof.
  induction before as [|[t o] before IH]; [reflexivity|].
  cbn [all_pass forallb fst snd]. intros Hb.
  apply andb_true_iff in Hb as [H1 H2].
  cbn [app setType]. rewrite (define_passes t o H1). cbn [bind].
  now apply IH.
Qed.

(** X14: [setType] returns [undefined] exactly when every entry passes;
    otherwise it throws what the first entry that does not pass makes
    [define] throw (the mismatch error when [typeMatches] answers
    [false], the host error when [typeMatches] throws), and the entries
    after that one play no part. *)
Theorem setType_first_failure (options : list (string * Value)) :
  (all_pass options = true -> setType options = Return VUndefined) /\
  (forall before type obj after,
     options = (before ++ (type, obj) :: after)%list ->
     all_pass before = true ->
     (typeMatches type obj = Return false ->
      exists t, toType obj = Return t /\
        setType options =
          Throw ("The value must be of type [" ++ type ++ "], [" ++
                 t ++ "] given.")) /\
     (typeMatches type obj = ThrowTypeError ->
      setType options = ThrowTypeError) /\
     (typeMatches type obj = ThrowReferenceError ->
      setType options = ThrowReferenceError)) /\
  (setType options = Return VUndefined -> all_pass options = true).
Proof.
  split; [|split].
  - intros H. rewrite <- (app_nil_r options).
    now rewrite setType_past.
  - intros before type obj after -> Hb.
    rewrite (setType_past _ _ Hb). cbn [setType]. unfold define.
    split; [|split]; intros Hf; rewrite Hf; cbn [bind negb];
      try reflexivity.
    rewrite typeMatches_labels in Hf.
    destruct (toType obj) as [t| | |]; try discriminate Hf.
    exists t. split; reflexivity.
  - induction options as [|[type obj] rest IH]; [reflexivity|].
    cbn [all_pass forallb fst snd setType]. unfold define, passes.
    destruct (typeMatches type obj) as [[]| | |];
      cbn [bind negb andb]; try discriminate; [exact IH|].
    destruct (toType obj); discriminate.
Qed.

Lemma setType_first_failure_witness :
  setType [("string", VString "Foo"); ("?int", VNull);
           ("bool", VBoolean true)] = Return VUndefined /\
  (exists t, toType (VString "yes") = Return t /\
     setType ([("string", VString "Foo"); ("?int", VNull)] ++
              ("bool", VString "yes") :: [("int", VString "no")]) =
     Throw ("The value must be of type [" ++ "bool" ++ "], [" ++
            t ++ "] given.")).
Proof.
  split.
  - apply (proj1 (setType_first_failure _)). reflexivity.
  - apply (proj1 (proj1 (proj2 (setType_first_failure _))
             [("string", VString "Foo"); ("?int", VNull)]
             "bool" (VString "yes") [("int", VString "no")]
             eq_refl eq_refl)).
    reflexivity.
Defined.

(* ===================================================================== *)
(** ** The remaining labels of the catalog *)
(* ===================================================================== *)

(** Only [null] itself has the coarse type ["null"]. *)
Lemma coarse_null (v : Value) :
  ("null" === isType v) = true -> v = VNull.
Proof.
  destruct v as [| |b|x|s| |z|o]; try discriminate; [reflexivity|].
  rewrite isType_object_entry, class2type_lookup.
  destruct (member_of (classTag o) class_names) eqn:E; [|discriminate].
  replace class_names with
    ["Boolean"; "Number"; "String"; "Function"; "Array"; "Date"; "RegExp";
     "Object"; "Error"; "Symbol"] in E by reflexivity.
  cbn [member_of existsb] in E.
  repeat match type of E with
         | (_ || _) = true => apply orb_prop in E as [E | E]
         end;
    try discriminate E; apply seq_true in E; rewrite E; discriminate.
Qed.

(** X20: the labels of four letters go by the first four characters of
    the refined type: [bool] and [null] accept exactly the values whose
    refined type begins with them, and [true] accepts in addition the
    boolean [true]; each throws what [toType] throws. *)
Theorem four_letter_labels (v : Value) :
  typeMatches "bool" v =
    on_return (fun t => "bool" === slice t 0 (Some 4)) (toType v) /\
  typeMatches "null" v =
    on_return (fun t => "null" === slice t 0 (Some 4)) (toType v) /\
  typeMatches "true" v =
    on_return (fun t => match v with VBoolean b => b | _ => false end ||
                        ("true" === slice t 0 (Some 4))) (toType v).
Proof.
  split; [|split].
  - apply typeMatches_one_label; try reflexivity. intros t _.
    one_label "bool".
    rewrite not_boolean_text by reflexivity.
    rewrite (not_coarse "bool") by reflexivity. cbn [orb].
    rewrite orb_false_r.
    pose proof (exact_label_prefix "bool" t eq_refl) as H.
    destruct ("bool" === slice t 0 (Some 4)); [reflexivity|].
    cbn [orb] in H. now rewrite H.
  - apply typeMatches_one_label; try reflexivity. intros t Ht.
    one_label "null".
    rewrite not_boolean_text by reflexivity. cbn [orb].
    pose proof (exact_label_prefix "null" t eq_refl) as H.
    destruct ("null" === slice t 0 (Some 4)) eqn:Ep; [reflexivity|].
    cbn [orb] in H. rewrite H. cbn [orb].
    destruct ("null" === isType v) eqn:Ec; [|reflexivity].
    apply coarse_null in Ec. subst v.
    injection Ht as <-. discriminate Ep.
  - apply typeMatches_one_label; try reflexivity. intros t _.
    one_label "true".
    rewrite (not_coarse "true") by reflexivity. rewrite orb_false_r.
    pose proof (exact_label_prefix "true" t eq_refl) as H.
    replace (match v with
             | VBoolean b => "true" === boolean_text b
             | _ => false
             end) with (match v with VBoolean b => b | _ => false end)
      by (destruct v as [| |[]| | | | |]; reflexivity).
    destruct (match v with VBoolean b => b | _ => false end);
      [reflexivity|]. cbn [orb].
    destruct ("true" === slice t 0 (Some 4)); [reflexivity|].
    cbn [orb] in H. now rewrite H.
Qed.

Lemma string_label (v : Value) :
  typeMatches "string" v =
  on_return (fun t => ("string" === t) || ("string" === isType v)) (toType v).
Proof.
  apply typeMatches_one_label; try reflexivity. intros t _.
  one_label "string".
  rewrite not_boolean_text by reflexivity.
  rewrite long_label_prefix by (cbn; lia). rewrite orb_false_r. cbn [orb].
  destruct ("string" === t); destruct ("string" === isType v); reflexivity.
Qed.

Lemma array_label (v : Value) :
  typeMatches "array" v =
  on_return (fun t => ("array" === t) || ("array" === isType v)) (toType v).
Proof.
  apply typeMatches_one_label; try reflexivity. intros t _.
  one_label "array".
  rewrite not_boolean_text by reflexivity.
  rewrite long_label_prefix by (cbn; lia). rewrite orb_false_r. cbn [orb].
  destruct ("array" === t); destruct ("array" === isType v); reflexivity.
Qed.

Lemma object_label (v : Value) :
  typeMatches "object" v =
  on_return (fun t => ("object" === t) || ("object" === isType v)) (toType v).
Proof.
  apply typeMatches_one_label; try reflexivity. intros t _.
  one_label "object".
  rewrite not_boolean_text by reflexivity.
  rewrite long_label_prefix by (cbn; lia). rewrite orb_false_r. cbn [orb].
  destruct ("object" === t); destruct ("object" === isType v); reflexivity.
Qed.

(** X21: the longer labels [string], [array] and [object] accept a value
    by its refined or by its coarse type, and [false] accepts the boolean
    [false] and the values whose refined type is ["false"]; each throws
    what [toType] throws. *)
Theorem long_labels (v : Value) :
  typeMatches "string" v =
    on_return (fun t => ("string" === t) || ("string" === isType v))
      (toType v) /\
  typeMatches "array" v =
    on_return (fun t => ("array" === t) || ("array" === isType v))
      (toType v) /\
  typeMatches "object" v =
    on_return (fun t => ("object" === t) || ("object" === isType v))
      (toType v) /\
  typeMatches "false" v =
    on_return (fun t => match v with VBoolean b => negb b | _ => false end ||
                        ("false" === t)) (toType v).
Proof.
  split; [|split; [|split]].
  - apply string_label.
  - apply array_label.
  - apply object_label.
  - apply typeMatches_one_label; try reflexivity. intros t _.
    one_label "false".
    rewrite (not_coarse "false") by reflexivity.
    rewrite long_label_prefix by (cbn; lia). rewrite !orb_false_r.
    replace (match v with
             | VBoolean b => "false" === boolean_text b
             | _ => false
             end) with (match v with VBoolean b => negb b | _ => false end)
      by (destruct v as [| |[]| | | | |]; reflexivity).
    destruct (match v with VBoolean b => negb b | _ => false end);
      [reflexivity|].
    cbn [orb]. destruct ("false" === t); reflexivity.
Qed.

(** X22: an object or a function whose class tag is outside the table
    has the coarse type ["object"], and [object] accepts it whenever
    [toType] returns for it (it throws what [toType] throws); so it is
    with an async function, which [callable] refuses. *)
Theorem unmapped_class_tag_is_object (o : object Value) :
  member_of (classTag o) class_names = false ->
  isType (VObject o) = "object" /\
  typeMatches "object" (VObject o) =
    on_return (fun _ => true) (toType (VObject o)).
Proof.
  intros H.
  assert (Hc : isType (VObject o) = "object")
    by now rewrite isType_object_entry, class2type_lookup, H.
  split; [exact Hc|].
  rewrite object_label, Hc. unfold on_return.
  destruct (toType (VObject o)); cbn [bind]; try reflexivity.
  now rewrite orb_true_r.
Qed.

Lemma unmapped_class_tag_is_object_witness :
  isType async_function = "object" /\
  typeMatches "object" async_function = Return true.
Proof.
  apply (unmapped_class_tag_is_object
           {| callable := true; classTag := "AsyncFunction";
              constructorName := Some "AsyncFunction";
              nodeTypeIs1 := false; instanceofHTMLElement := Some false;
              hasIterator := false;
              instanceofMap := false; instanceofSet := false;
              lengthProperty := VNumber (Zero false);
              toNumberResult := Some NaN;
              toStringResult := Some "async function () {}" |}).
  reflexivity.
Defined.

Lemma optional_accepts_nullish_witness :
  typeMatches ("?" ++ "string|array") VUndefined = Return true.
Proof.
  apply (optional_accepts_nullish "string|array" VUndefined).
  - reflexivity.
  - repeat constructor; discriminate.
Defined.

(* ===================================================================== *)
(** ** The hand-written predicates *)
(* ===================================================================== *)

Section Predicates.

Variable StringToNumber : string -> number.
Variable parseFloat_text : string -> number.

(** The globals the hand-written predicates call. *)
Lemma globals_resolved (obj : Value) :
  global1 "isInt" obj = Some (on_return VBoolean (typeMatches "int" obj)) /\
  global1 "isString" obj =
    Some (on_return VBoolean (typeMatches "string" obj)) /\
  global1 "isArray" obj =
    Some (on_return VBoolean (typeMatches "array" obj)) /\
  global1 "isObject" obj =
    Some (on_return VBoolean (typeMatches "object" obj)) /\
  global1 "isInteger" obj =
    Some (on_return VBoolean (typeMatches "int" obj)).
Proof.
  unfold global1, global.
  replace (typeh !! "isInt") with (Some (fn_predicate "int"))
    by (vm_compute; reflexivity).
  replace (typeh !! "isString") with (Some (fn_predicate "string"))
    by (vm_compute; reflexivity).
  replace (typeh !! "isArray") with (Some (fn_predicate "array"))
    by (vm_compute; reflexivity).
  replace (typeh !! "isObject") with (Some (fn_predicate "object"))
    by (vm_compute; reflexivity).
  replace (typeh !! "isInteger") with (Some fn_isInteger)
    by (vm_compute; reflexivity).
  cbn [call1 call0]. unfold global0, global.
  replace (typeh !! "isInt") with (Some (fn_predicate "int"))
    by (vm_compute; reflexivity).
  cbn [call0].
  split; [|split; [|split; [|split]]]; reflexivity.
Qed.

Lemma invoke_isLong (obj : Value) :
  invoke StringToNumber parseFloat_text "isLong" obj =
  on_truth (global1 "isInteger" obj) (fun integer =>
    if integer then boolean (Number_isInteger obj) else boolean false).
Proof.
  unfold invoke.
  replace (typeh !! "isLong") with (Some fn_isLong)
    by (vm_compute; reflexivity).
  reflexivity.
Qed.

Lemma invoke_isNumeric (obj : Value) :
  invoke StringToNumber parseFloat_text "isNumeric" obj =
  let difference :=
    match self_minus_parseFloat_isNaN StringToNumber parseFloat_text obj with
    | Some nan => boolean (negb nan)
    | None => Some ThrowTypeError
    end in
  on_truth (global1 "isInt" obj) (fun int =>
    if int then difference
    else on_truth (global1 "isString" obj) (fun str =>
           if str then difference else boolean false)).
Proof.
  unfold invoke.
  replace (typeh !! "isNumeric") with (Some fn_isNumeric)
    by (vm_compute; reflexivity).
  reflexivity.
Qed.

Lemma invoke_isCountable (obj : Value) :
  invoke StringToNumber parseFloat_text "isCountable" obj =
  on_truth (global1 "isArray" obj) (fun array =>
    if array then boolean true
    else if instanceof_Map_or_Set obj then boolean true
    else if nullish obj then boolean false
    else on_truth (global1 "isObject" obj) (fun object =>
           if object then global1 "isInteger" (get_length obj)
           else boolean false)).
Proof.
  unfold invoke.
  replace (typeh !! "isCountable") with (Some fn_isCountable)
    by (vm_compute; reflexivity).
  reflexivity.
Qed.

Lemma invoke_isScalar (obj : Value) :
  invoke StringToNumber parseFloat_text "isScalar" obj =
  Some (on_return VBoolean
          (matched <- typeMatches "string|bool" obj ;;
           if matched then Return true
           else if typeof obj === "number" then isFinite obj
           else Return false)).
Proof.
  unfold invoke.
  replace (typeh !! "isScalar") with (Some fn_isScalar)
    by (vm_compute; reflexivity).
  reflexivity.
Qed.

Lemma invoke_isInfinite (obj : Value) :
  invoke StringToNumber parseFloat_text "isInfinite" obj =
  boolean (is_infinity false obj || is_infinity true obj).
Proof.
  unfold invoke.
  replace (typeh !! "isInfinite") with (Some fn_isInfinite)
    by (vm_compute; reflexivity).
  reflexivity.
Qed.

(** X15: [isLong] is [Number.isInteger] whenever [toType] returns: the
    test [isInteger(obj)] in front of it never changes the answer, it can
    only throw what [toType] throws. *)
Theorem isLong_is_Number_isInteger (obj : Value) :
  invoke StringToNumber parseFloat_text "isLong" obj =
  Some (on_return (fun _ => VBoolean (Number_isInteger obj)) (toType obj)).
Proof.
  rewrite invoke_isLong.
  destruct (globals_resolved obj) as (_ & _ & _ & _ & ->).
  rewrite int_follows_toType. unfold on_return.
  destruct (toType obj) as [t| | |] eqn:Ht; try reflexivity.
  cbn [bind on_truth truthy].
  destruct (t === "int") eqn:E; [reflexivity|].
  destruct obj as [| |b|x|s| |z|o]; try reflexivity.
  cbn [Number_isInteger boolean].
  destruct (JSNumber.isInteger x) eqn:Hint; [|reflexivity].
  rewrite toType_number, number_guard, Hint, andb_false_r in Ht.
  injection Ht as <-. discriminate E.
Qed.

(** X16: on a number [isNumeric] is [Number.isInteger] too (12.5 is not
    numeric, no more than NaN); on a string it is decided by the two
    readings of the text alone. *)
Theorem isNumeric_on_numbers_and_strings :
  (forall x : number,
     invoke StringToNumber parseFloat_text "isNumeric" (VNumber x) =
     Some (Return (VBoolean (JSNumber.isInteger x)))) /\
  (forall s : string,
     invoke StringToNumber parseFloat_text "isNumeric" (VString s) =
     Some (Return (VBoolean
       (negb (JSNumber.difference_isNaN (StringToNumber s)
                (parseFloat_text s)))))).
Proof.
  split.
  - intros x. rewrite invoke_isNumeric.
    destruct (globals_resolved (VNumber x)) as (-> & -> & _).
    rewrite int_follows_toType, string_label, toType_number, number_guard.
    destruct x as [|[]|n|n m e]; try reflexivity.
    cbn [JSNumber.finite andb JSNumber.isInteger].
    destruct (JSNumber.k_of m <=? JSNumber.n_of m e); reflexivity.
  - intros s. rewrite invoke_isNumeric.
    destruct (globals_resolved (VString s)) as (-> & -> & _).
    rewrite int_follows_toType, string_label.
    reflexivity.
Qed.

(** X17: among the primitives, [isScalar] accepts the strings, the
    booleans and the finite numbers, and nothing else. *)
Theorem isScalar_on_primitives (obj : Value) :
  primitive obj = true ->
  invoke StringToNumber parseFloat_text "isScalar" obj =
  Some (Return (VBoolean
    match obj with
    | VString _ | VBoolean _ => true
    | VNumber x => JSNumber.finite x
    | _ => false
    end)).
Proof.
  intros Hp. rewrite invoke_isScalar.
  rewrite typeMatches_plain by reflexivity.
  change (split "|" "string|bool") with ["string"; "bool"].
  destruct obj as [| |[]|x|s| |z|o]; try discriminate Hp; try reflexivity.
  - rewrite toType_number.
    destruct (JSNumber.finite x && _); cbn [bind];
      rewrite !candidates_step_idle
        by (apply element_test_primitive; discriminate);
      reflexivity.
  - change (toType (VString s)) with (@Return string "string"). cbn [bind].
    rewrite !candidates_step_idle
      by (apply element_test_primitive; discriminate).
    reflexivity.
  - change (toType (VBigInt z)) with (@Return string "bigint"). cbn [bind].
    rewrite !candidates_step_idle
      by (apply element_test_primitive; discriminate).
    reflexivity.
Qed.

(** X18: no primitive is countable, not even a string, which has a
    length: the length is only looked at for what [isObject] accepts. *)
Theorem primitives_are_not_countable (obj : Value) :
  primitive obj = true ->
  invoke StringToNumber parseFloat_text "isCountable" obj =
  Some (Return (VBoolean false)).
Proof.
  intros Hp. rewrite invoke_isCountable.
  destruct (globals_resolved obj) as (_ & _ & -> & -> & _).
  rewrite array_label, object_label.
  destruct obj as [| |[]|x|s| |z|o]; try discriminate Hp; try reflexivity.
  rewrite toType_number.
  destruct (JSNumber.finite x && _); reflexivity.
Qed.

(** X19: what [isInfinite] accepts is an integer for [isInteger], and is
    refused by [isLong], [isNumeric] and [isScalar]. *)
Theorem infinite_values (obj : Value) :
  invoke StringToNumber parseFloat_text "isInfinite" obj =
    Some (Return (VBoolean true)) ->
  invoke StringToNumber parseFloat_text "isInteger" obj =
    Some (Return (VBoolean true)) /\
  invoke StringToNumber parseFloat_text "isLong" obj =
    Some (Return (VBoolean false)) /\
  invoke StringToNumber parseFloat_text "isNumeric" obj =
    Some (Return (VBoolean false)) /\
  invoke StringToNumber parseFloat_text "isScalar" obj =
    Some (Return (VBoolean false)).
Proof.
  rewrite invoke_isInfinite. intros H.
  destruct obj as [| |b|[|n|n|n m e]|s| |z|o]; try discriminate H.
  destruct n; (split; [|split; [|split]]); vm_compute; reflexivity.
Qed.

(** X23: for every label of the catalog, the optional constructor
    returns whatever the enforcing one returns, and for a value that is
    not nullish it returns only then. *)
Theorem optional_constructor_accepts_more :
  Forall (fun L => forall v : Value,
    (invoke StringToNumber parseFloat_text L v = Some (Return v) ->
     invoke StringToNumber parseFloat_text ("_" ++ L) v = Some (Return v)) /\
    (nullish v = false ->
     invoke StringToNumber parseFloat_text ("_" ++ L) v = Some (Return v) ->
     invoke StringToNumber parseFloat_text L v = Some (Return v)))
    types.
Proof.
  assert (Hunmarked :
    Forall (fun L => (slice L 0 (Some 1) === "?") = false) types)
    by (rewrite types_catalog; repeat constructor).
  pose proof typeh_entries as Hentries.
  rewrite Forall_forall in *. intros L HL v.
  destruct (Hentries L HL) as (Hreq & Hopt & _).
  pose proof (marker_keeps L v (Hunmarked L HL)) as Hadd.
  pose proof (marker_idle L v (Hunmarked L HL)) as Hsame.
  unfold invoke. rewrite Hreq, Hopt. cbn [call2 call1 call0].
  unfold define. split.
  - destruct (typeMatches L v) as [[]| | |]; cbn [bind negb];
      try discriminate.
    + now rewrite Hadd.
    + destruct (toType v); discriminate.
  - intros Hn. rewrite (Hsame Hn).
    destruct (typeMatches L v) as [[]| | |]; cbn [bind negb];
      try discriminate; [reflexivity|].
    destruct (toType v); discriminate.
Qed.

End Predicates.

Lemma isScalar_on_primitives_witness :
  invoke (fun _ => NaN) (fun _ => NaN) "isScalar" (VNumber (Infinity false)) =
  Some (Return (VBoolean false)).
Proof.
  apply (isScalar_on_primitives (fun _ => NaN) (fun _ => NaN)
           (VNumber (Infinity false))).
  reflexivity.
Defined.

Lemma primitives_are_not_countable_witness :
  invoke (fun _ => NaN) (fun _ => NaN) "isCountable" (VString "abc") =
  Some (Return (VBoolean false)).
Proof.
  apply (primitives_are_not_countable (fun _ => NaN) (fun _ => NaN)
           (VString "abc")).
  reflexivity.
Defined.

Lemma infinite_values_witness :
  invoke (fun _ => NaN) (fun _ => NaN) "isLong" (VNumber (Infinity true)) =
  Some (Return (VBoolean false)).
Proof.
  apply (infinite_values (fun _ => NaN) (fun _ => NaN)
           (VNumber (Infinity true))).
  vm_compute. reflexivity.
Defined.

Lemma optional_constructor_accepts_more_witness :
  invoke (fun _ => NaN) (fun _ => NaN) ("_" ++ "int") five =
  Some (Return five).
Proof.
  pose proof (optional_constructor_accepts_more (fun _ => NaN) (fun _ => NaN))
    as H.
  rewrite types_catalog in H.
  apply (proj1 (Forall_inv H five)).
  vm_compute. reflexivity.
Defined.
